(** * Library card issuing workflow (ex.py): model and verification

    The Python program is embedded shallowly.  Text is a list of Unicode
    code points, [bytes] a list of octets, a [float] is a binary64 value,
    and the classes that perform I/O become functions in a small
    state-and-exception monad. *)

From Stdlib Require Import NArith ZArith Lia List Bool.
From Stdlib Require Import Strings.String Strings.Ascii Strings.Byte.
From Stdlib Require Import Numbers.DecimalString Numbers.DecimalPos.
From Stdlib Require Import Floats.PrimFloat Floats.SpecFloat Floats.FloatOps.
From stdpp Require Import base option list gmap.

Local Open Scope N_scope.

(** ** Python [str] and [bytes] *)

(** A [str] is a sequence of code points.  Python keeps every code point
    below 0x110000; lone surrogates (0xD800-0xDFFF) may occur. *)
Definition str := list N.
Definition bytes := list byte.

Definition is_surrogate (c : N) : bool := (0xD800 <=? c) && (c <=? 0xDFFF).

(** Unicode scalar values: what UTF-8 can encode. *)
Definition is_scalar (c : N) : bool := (c <? 0x110000) && negb (is_surrogate c).

Definition byte_of_N (n : N) : byte :=
  match Byte.of_N n with Some b => b | None => x00 end.

(** *** The UTF-8 codec ([str.encode('utf-8')], [bytes.decode('utf-8')]) *)

Definition utf8_encode_cp (c : N) : bytes :=
  if c <? 0x80 then [byte_of_N c]
  else if c <? 0x800 then
    [byte_of_N (0xC0 + c / 64); byte_of_N (0x80 + c mod 64)]
  else if c <? 0x10000 then
    [byte_of_N (0xE0 + c / 4096); byte_of_N (0x80 + (c / 64) mod 64);
     byte_of_N (0x80 + c mod 64)]
  else
    [byte_of_N (0xF0 + c / 262144); byte_of_N (0x80 + (c / 4096) mod 64);
     byte_of_N (0x80 + (c / 64) mod 64); byte_of_N (0x80 + c mod 64)].

(** [None] when some code point cannot be encoded. *)
Fixpoint utf8_encode_all (s : str) : option bytes :=
  match s with
  | [] => Some []
  | c :: r =>
      if is_scalar c then (fun b => utf8_encode_cp c ++ b) <$> utf8_encode_all r
      else None
  end.

(** Index of the first code point that cannot be encoded, and the length
    of the run of such code points that starts there: the [start] and
    [end] attributes of the UnicodeEncodeError. *)
Fixpoint first_unencodable (s : str) : nat :=
  match s with
  | [] => O
  | c :: r => if is_scalar c then S (first_unencodable r) else O
  end.

Fixpoint unencodable_run (s : str) : nat :=
  match s with
  | [] => O
  | c :: r => if is_scalar c then O else S (unencodable_run r)
  end.

Definition is_cont (n : N) : bool := (0x80 <=? n) && (n <=? 0xBF).

(** Range of the second octet of a three-octet form, by lead octet
    (no overlong forms, no surrogates). *)
Definition second_of_3 (n0 n1 : N) : bool :=
  if n0 =? 0xE0 then (0xA0 <=? n1) && (n1 <=? 0xBF)
  else if n0 =? 0xED then (0x80 <=? n1) && (n1 <=? 0x9F)
  else is_cont n1.

(** Range of the second octet of a four-octet form (nothing above 0x10FFFF). *)
Definition second_of_4 (n0 n1 : N) : bool :=
  if n0 =? 0xF0 then (0x90 <=? n1) && (n1 <=? 0xBF)
  else if n0 =? 0xF4 then (0x80 <=? n1) && (n1 <=? 0x8F)
  else is_cont n1.

(** Strict decoding; [None] stands for UnicodeDecodeError. *)
Fixpoint utf8_decode (bs : bytes) : option str :=
  match bs with
  | [] => Some []
  | b0 :: r0 =>
    let n0 := Byte.to_N b0 in
    if n0 <? 0x80 then (fun t => n0 :: t) <$> utf8_decode r0
    else
      match r0 with
      | [] => None
      | b1 :: r1 =>
        let n1 := Byte.to_N b1 in
        if (0xC2 <=? n0) && (n0 <=? 0xDF) then
          if is_cont n1
          then (fun t => ((n0 - 0xC0) * 64 + (n1 - 0x80)) :: t) <$> utf8_decode r1
          else None
        else
          match r1 with
          | [] => None
          | b2 :: r2 =>
            let n2 := Byte.to_N b2 in
            if (0xE0 <=? n0) && (n0 <=? 0xEF) then
              if second_of_3 n0 n1 && is_cont n2
              then (fun t => ((n0 - 0xE0) * 4096 + (n1 - 0x80) * 64
                              + (n2 - 0x80)) :: t) <$> utf8_decode r2
              else None
            else
              match r2 with
              | [] => None
              | b3 :: r3 =>
                let n3 := Byte.to_N b3 in
                if (0xF0 <=? n0) && (n0 <=? 0xF4) then
                  if second_of_4 n0 n1 && is_cont n2 && is_cont n3
                  then (fun t => ((n0 - 0xF0) * 262144 + (n1 - 0x80) * 4096
                                  + (n2 - 0x80) * 64 + (n3 - 0x80)) :: t)
                         <$> utf8_decode r3
                  else None
                else None
              end
          end
      end
  end.

(** String literals of the source file: the file is UTF-8, so a literal is
    read by decoding its octets. *)
Definition lit (s : string) : str :=
  match utf8_decode (list_byte_of_string s) with
  | Some t => t
  | None => []
  end.

(** *** Numbers as text *)

Fixpoint digits_of_uint (u : Decimal.uint) : str :=
  match u with
  | Decimal.Nil => []
  | Decimal.D0 r => 48 :: digits_of_uint r
  | Decimal.D1 r => 49 :: digits_of_uint r
  | Decimal.D2 r => 50 :: digits_of_uint r
  | Decimal.D3 r => 51 :: digits_of_uint r
  | Decimal.D4 r => 52 :: digits_of_uint r
  | Decimal.D5 r => 53 :: digits_of_uint r
  | Decimal.D6 r => 54 :: digits_of_uint r
  | Decimal.D7 r => 55 :: digits_of_uint r
  | Decimal.D8 r => 56 :: digits_of_uint r
  | Decimal.D9 r => 57 :: digits_of_uint r
  end.

(** [str(n)] for a non-negative integer. *)
Definition str_of_N (n : N) : str := digits_of_uint (N.to_uint n).

(** [format(n, '0<w>d')] for a non-negative integer: zero padding on the left. *)
Definition zfill (w : nat) (s : str) : str :=
  replicate (w - length s)%nat 48 ++ s.

Definition is_digit (c : N) : bool := (48 <=? c) && (c <=? 57).

Definition hex_digit (n : N) : N := if n <? 10 then 48 + n else 87 + n.

(** [w] lower-case hexadecimal digits of [n], most significant first. *)
Fixpoint hex_fixed (w : nat) (n : N) : str :=
  match w with
  | O => []
  | S w' => hex_fixed w' (n / 16) ++ [hex_digit (n mod 16)]
  end.

(** *** [format(x, '.2f')] on a float *)

(** [n / d] rounded to the nearest integer, ties to the even one. *)
Definition round_half_even (n d : N) : N :=
  let q := n / d in
  let r := n mod d in
  if 2 * r <? d then q
  else if d <? 2 * r then q + 1
  else if N.even q then q else q + 1.

(** Sign, integer part, point, two digits: [q] counts hundredths. *)
Definition fixed2 (neg : bool) (q : N) : str :=
  (if neg then [45] else []) ++ str_of_N (q / 100) ++ [46]
    ++ zfill 2 (str_of_N (q mod 100)).

(** The exact value of a finite binary64 is [m * 2^e]; Python prints the
    correctly rounded decimal with two fractional digits and keeps the
    sign of zero. *)
Definition format_2f (x : float) : str :=
  match Prim2SF x with
  | S754_nan => lit "nan"
  | S754_infinity neg => (if neg then [45] else []) ++ lit "inf"
  | S754_zero neg => fixed2 neg 0
  | S754_finite neg m e =>
      let q :=
        match e with
        | Z0 => N.pos m * 100
        | Zpos p => N.pos m * 2 ^ N.pos p * 100
        | Zneg p => round_half_even (N.pos m * 100) (2 ^ N.pos p)
        end in
      fixed2 neg q
  end.

(** *** [str.strip()] *)

(** The code points for which [str.isspace] holds of a one-character string. *)
Definition isspace (c : N) : bool :=
  ((0x09 <=? c) && (c <=? 0x0D)) || ((0x1C <=? c) && (c <=? 0x20))
  || (c =? 0x85) || (c =? 0xA0) || (c =? 0x1680)
  || ((0x2000 <=? c) && (c <=? 0x200A))
  || (c =? 0x2028) || (c =? 0x2029) || (c =? 0x202F) || (c =? 0x205F)
  || (c =? 0x3000).

Fixpoint lstrip (s : str) : str :=
  match s with
  | [] => []
  | c :: r => if isspace c then lstrip r else s
  end.

Definition rstrip (s : str) : str := rev (lstrip (rev s)).

Definition strip (s : str) : str := rstrip (lstrip s).

Definition nl : str := [10].

(** ** Exceptions *)

(** What can be raised.  [Exception msg] stands for any other class
    derived from [Exception], with [msg] its [str()]; the error classes of
    the collaborators fall here.  [BaseException msg] stands for the
    classes that derive from [BaseException] only (KeyboardInterrupt,
    SystemExit), which [except Exception] lets through. *)
Inductive exn : Type :=
| ValueError (msg : str)
| UnicodeEncodeError (object : str) (start stop : nat)
| Exception (msg : str)
| BaseException (msg : str).

(** [isinstance(e, Exception)] *)
Definition is_Exception (e : exn) : bool :=
  match e with
  | BaseException _ => false
  | _ => true
  end.

(** [str(e)]. *)
Definition exn_str (e : exn) : str :=
  match e with
  | ValueError msg => msg
  | Exception msg => msg
  | BaseException msg => msg
  | UnicodeEncodeError object start stop =>
      if (stop =? S start)%nat then
        let c := nth start object 0 in
        lit "'utf-8' codec can't encode character '" ++ [92]
          ++ (if c <=? 0xFF then [120] ++ hex_fixed 2 c
              else if c <=? 0xFFFF then [117] ++ hex_fixed 4 c
              else [85] ++ hex_fixed 8 c)
          ++ lit "' in position " ++ str_of_N (N.of_nat start)
          ++ lit ": surrogates not allowed"
      else
        lit "'utf-8' codec can't encode characters in position "
          ++ str_of_N (N.of_nat start) ++ [45]
          ++ str_of_N (N.of_nat (stop - 1)) ++ lit ": surrogates not allowed"
  end.

Inductive outcome (A : Type) : Type :=
| Ret (a : A)
| Raise (e : exn).
Arguments Ret {A} a.
Arguments Raise {A} e.

(** ** Programs: state passing with exceptions *)

Definition prog (S A : Type) : Type := S -> outcome A * S.

Definition ret {S A} (a : A) : prog S A := fun s => (Ret a, s).

Definition raise {S A} (e : exn) : prog S A := fun s => (Raise e, s).

Definition bind {S A B} (m : prog S A) (k : A -> prog S B) : prog S B :=
  fun s =>
    match m s with
    | (Ret a, s') => k a s'
    | (Raise e, s') => (Raise e, s')
    end.

(** [try: m  except Exception as e: h e].  What [m] did to the state before
    it raised stays done; an exception that is not an [Exception] goes
    through, and so does whatever the handler raises. *)
Definition try_except {S A} (m : prog S A) (h : exn -> prog S A) : prog S A :=
  fun s =>
    match m s with
    | (Ret a, s') => (Ret a, s')
    | (Raise e, s') => if is_Exception e then h e s' else (Raise e, s')
    end.

Declare Scope prog_scope.
Delimit Scope prog_scope with prog.
Notation "x <- m ;; k" := (bind m (fun x => k))
  (at level 100, m at next level, right associativity) : prog_scope.
Notation "m ;; k" := (bind m (fun _ => k))
  (at level 100, right associativity) : prog_scope.

(** [s.encode('utf-8')] *)
Definition str_encode {S} (s : str) : prog S bytes :=
  match utf8_encode_all s with
  | Some b => ret b
  | None =>
      let i := first_unencodable s in
      raise (UnicodeEncodeError s i (i + unencodable_run (drop i s)))
  end.

(** Python's standard output, a UTF-8 text stream with strict error
    handling: one entry per completed [print] call (its argument, without
    the newline [print] adds). *)
Record Outside (E : Type) : Type := mkOutside {
  stdout : list str;
  env : E   (* whatever else the collaborators can reach: mail, devices *)
}.
Arguments mkOutside {E} _ _.
Arguments stdout {E} _.
Arguments env {E} _.

(** [print(s)]: the text is encoded for the stream first, so a text that
    cannot be encoded raises UnicodeEncodeError and nothing of it is
    written. *)
Definition print {E} (s : str) : prog (Outside E) unit :=
  bind (str_encode s)
    (fun _ o => (Ret tt, mkOutside (stdout o ++ [s]) (env o))).

(** ** Data model *)

(** [datetime.date] *)
Record date : Type := mkDate { year : N; month : N; day : N }.

(** [date.isoformat()]: YYYY-MM-DD *)
Definition isoformat (d : date) : str :=
  zfill 4 (str_of_N (year d)) ++ [45] ++ zfill 2 (str_of_N (month d))
    ++ [45] ++ zfill 2 (str_of_N (day d)).

Module Usuario.
Record t : Type := mk {
  id : str;
  nombre : str;
  correo : str;
  tipo : str;
  fecha_registro : date
}.

(** [uuid4] is the text of [uuid.uuid4()] and [today] the value of
    [datetime.date.today()] at the call. *)
Definition nuevo (uuid4 : str) (today : date) (nombre correo tipo : str) : t :=
  mk uuid4 nombre correo tipo today.
End Usuario.
Abbreviation Usuario := Usuario.t.

(** The dict that [InMemoryRepository] stores. *)
Module Registro.
Record t : Type := mk { usuario : Usuario; costo : float; carne : bytes }.
End Registro.
Abbreviation Registro := Registro.t.

(** The dict that [emitir_carne] returns. *)
Module Resultado.
Record t : Type := mk { usuario_id : str; costo : float }.
End Resultado.
Abbreviation Resultado := Resultado.t.

(** The state a run works on.  [store] is the [_store] list of the
    in-memory repository, an attribute no other object holds. *)
Record World (E : Type) : Type := mkWorld {
  outside : Outside E;
  store : list Registro
}.
Arguments mkWorld {E} _ _.
Arguments outside {E} _.
Arguments store {E} _.

(** A program of a collaborator that does not hold the repository, run
    by one that does. *)
Definition lift {E A} (m : prog (Outside E) A) : prog (World E) A :=
  fun w => let (r, o) := m (outside w) in (r, mkWorld o (store w)).

(** ** Interfaces *)

Record IUserValidator (E : Type) : Type :=
  { validar : Usuario -> prog (Outside E) unit }.
Arguments validar {E} _ _.

Record ICostoCarne : Type :=
  { calcular : Usuario -> float }.

Record ICardGenerator (E : Type) : Type :=
  { generar : Usuario -> float -> prog (Outside E) bytes }.
Arguments generar {E} _ _ _.

Record INotifier (E : Type) : Type :=
  { enviar : str -> str -> str -> option bytes -> prog (Outside E) unit }.
Arguments enviar {E} _ _ _ _ _.

Record IRepository (E : Type) : Type :=
  { guardar_usuario : Usuario -> float -> bytes -> prog (World E) unit }.
Arguments guardar_usuario {E} _ _ _ _.

Record IPrinter (E : Type) : Type :=
  { imprimir : bytes -> prog (Outside E) unit }.
Arguments imprimir {E} _ _.

Local Open Scope prog_scope.

(** ** Validator *)

Module UsuarioValidator.
Definition tipos : gset str :=
  {[ lit "estudiante_pre"; lit "estudiante_pos"; lit "docente";
     lit "administrativo"; lit "externo" ]}.

Definition validar {S} (usuario : Usuario) : prog S unit :=
  (if bool_decide (Usuario.nombre usuario = [])
      || (length (strip (Usuario.nombre usuario)) <? 2)%nat
   then raise (ValueError (lit "Nombre inválido")) else ret tt) ;;
  (if negb (bool_decide (64 ∈ Usuario.correo usuario))
      || (length (strip (Usuario.correo usuario)) <? 5)%nat
   then raise (ValueError (lit "Correo inválido")) else ret tt) ;;
  (if negb (bool_decide (Usuario.tipo usuario ∈ tipos))
   then raise (ValueError (lit "Tipo de usuario desconocido: "
                             ++ Usuario.tipo usuario))
   else ret tt).

Definition new {E} : IUserValidator E := Build_IUserValidator E validar.
End UsuarioValidator.

(** ** Fee strategies *)

Definition CostoEstudiantePre : ICostoCarne := {| calcular := fun _ => 10%float |}.
Definition CostoEstudiantePos : ICostoCarne := {| calcular := fun _ => 12%float |}.
Definition CostoDocente : ICostoCarne := {| calcular := fun _ => 5%float |}.
Definition CostoAdministrativo : ICostoCarne := {| calcular := fun _ => 6%float |}.
Definition CostoExterno : ICostoCarne := {| calcular := fun _ => 20%float |}.

Module CostoFactory.
Definition _mapping : gmap str ICostoCarne :=
  {[ lit "estudiante_pre" := CostoEstudiantePre;
     lit "estudiante_pos" := CostoEstudiantePos;
     lit "docente" := CostoDocente;
     lit "administrativo" := CostoAdministrativo;
     lit "externo" := CostoExterno ]}.

(** The membership test and the indexing of the source are one lookup. *)
Definition get_costo_strategy {S} (tipo : str) : prog S ICostoCarne :=
  match _mapping !! tipo with
  | None => raise (ValueError (lit "No hay estrategia de costo para tipo: "
                                 ++ tipo))
  | Some cls => ret cls
  end.
End CostoFactory.

(** ** Card generator *)

Module SimpleCardGenerator.
Definition contenido (usuario : Usuario) (costo : float) : str :=
  lit "CARNE BIBLIOTECA UNSCH" ++ nl
  ++ lit "Nombre: " ++ Usuario.nombre usuario ++ nl
  ++ lit "ID: " ++ Usuario.id usuario ++ nl
  ++ lit "Tipo: " ++ Usuario.tipo usuario ++ nl
  ++ lit "Costo: S/ " ++ format_2f costo ++ nl
  ++ lit "Fecha: " ++ isoformat (Usuario.fecha_registro usuario) ++ nl.

Definition generar {S} (usuario : Usuario) (costo : float) : prog S bytes :=
  str_encode (contenido usuario costo).

Definition new {E} : ICardGenerator E := Build_ICardGenerator E generar.
End SimpleCardGenerator.

(** ** Notifier *)

Module EmailNotifier.
Definition enviar {E} (smtp_server : str) (smtp_port : Z)
    (destinatario asunto cuerpo : str) (attachment : option bytes)
    : prog (Outside E) unit :=
  print (lit "[EmailNotifier] Enviando email a " ++ destinatario ++ lit ": "
           ++ asunto ++ nl ++ take 80 cuerpo ++ lit "...") ;;
  match attachment with
  | Some ((_ :: _) as a) =>
      print (lit "[EmailNotifier] Attachment size: "
               ++ str_of_N (N.of_nat (length a)) ++ lit " bytes")
  | _ => ret tt
  end.

Definition new {E} (smtp_server : str) (smtp_port : Z) : INotifier E :=
  Build_INotifier E (enviar smtp_server smtp_port).
End EmailNotifier.

(** ** Repositories *)

Module InMemoryRepository.
Definition guardar_usuario {E} (usuario : Usuario) (costo : float)
    (carne_bin : bytes) : prog (World E) unit :=
  (fun w => (Ret tt,
             mkWorld (outside w)
               (store w ++ [Registro.mk usuario costo carne_bin]))) ;;
  n <- (fun w => (Ret (length (store w)), w)) ;;
  lift (print (lit "[InMemoryRepository] Usuario " ++ Usuario.id usuario
                 ++ lit " guardado (mem). Total registros: "
                 ++ str_of_N (N.of_nat n))).

Definition new {E} : IRepository E := Build_IRepository E guardar_usuario.
End InMemoryRepository.

Module MySQLRepository.
Definition guardar_usuario {E} (host user password database : str)
    (usuario : Usuario) (costo : float) (carne_bin : bytes)
    : prog (World E) unit :=
  lift (print (lit "[MySQLRepository] Guardando usuario " ++ Usuario.id usuario
                 ++ lit " en " ++ database ++ [64] ++ host)).

Definition new {E} (host user password database : str) : IRepository E :=
  Build_IRepository E (guardar_usuario host user password database).
End MySQLRepository.

(** ** Printer *)

Module ConsolePrinter.
(** The [try] block decodes and prints; a failure of either goes to the
    [except] branch, which does not look at the exception. *)
Definition imprimir {E} (carcarn : bytes) : prog (Outside E) unit :=
  print (lit "[ConsolePrinter] Imprimiendo carné:" ++ nl) ;;
  let binario :=
    print (lit "[ConsolePrinter] (binario) "
             ++ str_of_N (N.of_nat (length carcarn)) ++ lit " bytes") in
  match utf8_decode carcarn with
  | Some texto => try_except (print texto) (fun _ => binario)
  | None => binario
  end.

Definition new {E} : IPrinter E := Build_IPrinter E imprimir.
End ConsolePrinter.

(** ** The workflow *)

Module GestorCarne.
Record t (E : Type) : Type := mk {
  validator : IUserValidator E;
  repo : IRepository E;
  notifier : INotifier E;
  card_generator : ICardGenerator E;
  printer : IPrinter E
}.
Arguments mk {E} _ _ _ _ _.
Arguments validator {E} _.
Arguments repo {E} _.
Arguments notifier {E} _.
Arguments card_generator {E} _.
Arguments printer {E} _.

Definition asunto : str := lit "Su carné de la Biblioteca Central - UNSCH".

Definition cuerpo (usuario : Usuario) (costo : float) : str :=
  lit "Estimado/a " ++ Usuario.nombre usuario ++ lit "," ++ nl
  ++ lit "Su carné está listo." ++ nl
  ++ lit "Costo: S/ " ++ format_2f costo ++ nl
  ++ lit "ID: " ++ Usuario.id usuario ++ nl.

Definition emitir_carne {E} (self : t E) (usuario : Usuario)
    : prog (World E) Resultado :=
  lift (validar (validator self) usuario) ;;
  costo_strategy <- CostoFactory.get_costo_strategy (Usuario.tipo usuario) ;;
  let costo := calcular costo_strategy usuario in
  carne_bin <- lift (generar (card_generator self) usuario costo) ;;
  guardar_usuario (repo self) usuario costo carne_bin ;;
  try_except
    (lift (enviar (notifier self) (Usuario.correo usuario) asunto
             (cuerpo usuario costo) (Some carne_bin)))
    (fun e => lift (print (lit "[GestorCarne] Error enviando notificación: "
                             ++ exn_str e))) ;;
  try_except
    (lift (imprimir (printer self) carne_bin))
    (fun e => lift (print (lit "[GestorCarne] Error imprimiendo carné: "
                             ++ exn_str e))) ;;
  ret (Resultado.mk (Usuario.id usuario) costo).
End GestorCarne.
Abbreviation GestorCarne := GestorCarne.t.

(** ** Notions the specification uses *)

(** The fee of a category: strategy lookup, then [calcular]. *)
Definition feeFor {S} (tipo : str) (usuario : Usuario) : prog S float :=
  costo_strategy <- CostoFactory.get_costo_strategy tipo ;;
  ret (calcular costo_strategy usuario).

(** The five recognized categories (undergraduate student, graduate
    student, faculty, staff, external), as the program spells them. *)
Definition categorias : list str :=
  [lit "estudiante_pre"; lit "estudiante_pos"; lit "docente";
   lit "administrativo"; lit "externo"].

(** The three reasons for which the specification rejects a member. *)
Definition nombre_malo (u : Usuario) : Prop :=
  Usuario.nombre u = [] \/ (length (strip (Usuario.nombre u)) < 2)%nat.

Definition correo_malo (u : Usuario) : Prop :=
  64 ∉ Usuario.correo u \/ (length (strip (Usuario.correo u)) < 5)%nat.

Definition tipo_malo (u : Usuario) : Prop :=
  Usuario.tipo u ∉ categorias.

Definition miembro_invalido (u : Usuario) : Prop :=
  nombre_malo u \/ correo_malo u \/ tipo_malo u.

(** Text that [encode('utf-8')] accepts. *)
Definition encodable (s : str) : Prop := Forall (fun c => is_scalar c = true) s.

(** The lines of a card, and a text made of newline-terminated lines. *)
Definition card_lines (u : Usuario) (fee : float) : list str :=
  [lit "CARNE BIBLIOTECA UNSCH";
   lit "Nombre: " ++ Usuario.nombre u;
   lit "ID: " ++ Usuario.id u;
   lit "Tipo: " ++ Usuario.tipo u;
   lit "Costo: S/ " ++ format_2f fee;
   lit "Fecha: " ++ isoformat (Usuario.fecha_registro u)].

Definition unlines (ls : list str) : str :=
  concat (map (fun l => l ++ nl) ls).

(** An amount with two decimals: optional sign, digits, a point, two digits. *)
Definition two_decimals (s : str) : Prop :=
  exists (sign int_part : str) (d1 d2 : N),
    s = sign ++ int_part ++ [46; d1; d2]
    /\ (sign = [] \/ sign = [45])
    /\ int_part <> [] /\ Forall (fun c => is_digit c = true) int_part
    /\ is_digit d1 = true /\ is_digit d2 = true.

(** YYYY-MM-DD *)
Definition iso_8601_date (s : str) : Prop :=
  exists y1 y2 y3 y4 m1 m2 d1 d2 : N,
    s = [y1; y2; y3; y4; 45; m1; m2; 45; d1; d2]
    /\ Forall (fun c => is_digit c = true) [y1; y2; y3; y4; m1; m2; d1; d2].

(** The dates [datetime.date] can hold (the day is checked against the
    month elsewhere; only the field widths matter here). *)
Definition date_in_range (d : date) : Prop :=
  1 <= year d <= 9999 /\ 1 <= month d <= 12 /\ 1 <= day d <= 31.

(** A member the validator accepts. *)
Definition pasa_validacion (u : Usuario) : Prop :=
  UsuarioValidator.validar u tt = (Ret tt, tt).

(** The two best-effort steps of the workflow, each with its handler. *)
Definition notify_step {E} (n : INotifier E) (u : Usuario) (fee : float)
    (carne_bin : bytes) : prog (Outside E) unit :=
  try_except
    (enviar n (Usuario.correo u) GestorCarne.asunto (GestorCarne.cuerpo u fee)
       (Some carne_bin))
    (fun e => print (lit "[GestorCarne] Error enviando notificación: " ++ exn_str e)).

Definition print_step {E} (p : IPrinter E) (carne_bin : bytes)
    : prog (Outside E) unit :=
  try_except (imprimir p carne_bin)
    (fun e => print (lit "[GestorCarne] Error imprimiendo carné: " ++ exn_str e)).

(** What the in-memory repository prints once it holds [n] records. *)
Definition saved_message (u : Usuario) (n : nat) : str :=
  lit "[InMemoryRepository] Usuario " ++ Usuario.id u
    ++ lit " guardado (mem). Total registros: " ++ str_of_N (N.of_nat n).

(** *** Sample objects *)

Definition demo_gestor : GestorCarne unit :=
  GestorCarne.mk UsuarioValidator.new InMemoryRepository.new
    (EmailNotifier.new (lit "smtp.miuniversidad.edu") 587)
    SimpleCardGenerator.new ConsolePrinter.new.

Definition mundo_vacio : World unit := mkWorld (mkOutside [] tt) [].

Definition ana : Usuario :=
  Usuario.nuevo (lit "1b4e28ba-2fa1-4d3b-a3f5-ef19b5a7633b") (mkDate 2024 3 7)
    (lit "Ana Torres") (lit "ana@uni.edu") (lit "estudiante_pre").

Definition equis : Usuario :=
  Usuario.nuevo (lit "7c9e6679-7425-40de-944b-e07fc1f90ae7") (mkDate 2024 3 7)
    (lit "X") (lit "bad") (lit "docente").

(** A member whose name holds a lone surrogate (as [input()] yields for an
    undecodable octet under the surrogateescape handler). *)
Definition sustituta : Usuario :=
  Usuario.nuevo (lit "7c9e6679-7425-40de-944b-e07fc1f90ae7") (mkDate 2024 3 7)
    (lit "Ana" ++ [0xDCE9]) (lit "ana@uni.edu") (lit "docente").

(** Collaborators that record each call in the environment, and ones that
    always fail. *)
Definition spy {A} (tag : string) (r : outcome A) : prog (Outside (list string)) A :=
  fun o => (r, mkOutside (stdout o) (env o ++ [tag])).

Definition spy_gestor : GestorCarne (list string) :=
  GestorCarne.mk UsuarioValidator.new
    (Build_IRepository _ (fun _ _ _ => lift (spy "repo" (Ret tt))))
    (Build_INotifier _ (fun _ _ _ _ => spy "notifier" (Ret tt)))
    (Build_ICardGenerator _ (fun _ _ => spy "card_generator" (Ret [])))
    (Build_IPrinter _ (fun _ => spy "printer" (Ret tt))).

Definition failing_notifier {E} : INotifier E :=
  Build_INotifier E (fun _ _ _ _ => raise (Exception (lit "DeliveryError"))).

Definition failing_printer {E} : IPrinter E :=
  Build_IPrinter E (fun _ => raise (Exception (lit "PrintError"))).

(** ** Further notions *)

(** The code points of a text that are not whitespace. *)
Definition no_blancos (s : str) : str :=
  List.filter (fun c => negb (isspace c)) s.

(** The member with its name and email trimmed. *)
Definition recortado (u : Usuario) : Usuario :=
  Usuario.mk (Usuario.id u) (strip (Usuario.nombre u)) (strip (Usuario.correo u))
    (Usuario.tipo u) (Usuario.fecha_registro u).

(** Saving several records, one call of [guardar_usuario] after another. *)
Fixpoint guardar_todos {E} (rs : list Registro) : prog (World E) unit :=
  match rs with
  | [] => ret tt
  | r :: rest =>
      InMemoryRepository.guardar_usuario (Registro.usuario r) (Registro.costo r)
        (Registro.carne r) ;;
      guardar_todos rest
  end.

(** What those calls print, when the repository held [k] records before. *)
Fixpoint mensajes_guardado (k : nat) (rs : list Registro) : list str :=
  match rs with
  | [] => []
  | r :: rest =>
      saved_message (Registro.usuario r) (S k) :: mensajes_guardado (S k) rest
  end.

(** A validator that accepts everything, one that accepts nothing, and a
    repository that is down. *)
Definition permissive_validator {E} : IUserValidator E :=
  Build_IUserValidator E (fun _ => ret tt).

Definition rejecting_validator {E} : IUserValidator E :=
  Build_IUserValidator E (fun _ => raise (Exception (lit "registration closed"))).

Definition failing_repo {E} : IRepository E :=
  Build_IRepository E (fun _ _ _ => raise (Exception (lit "connection refused"))).

Definition visitante : Usuario :=
  Usuario.nuevo (lit "0f8fad5b-d9cb-469f-a165-70867728950e") (mkDate 2024 3 7)
    (lit "Luz Quispe") (lit "luz@uni.edu") (lit "visitante").

(** The line [EmailNotifier] prints for a message. *)
Definition email_line (destinatario asunto cuerpo : str) : str :=
  lit "[EmailNotifier] Enviando email a " ++ destinatario ++ lit ": "
    ++ asunto ++ nl ++ take 80 cuerpo ++ lit "...".

Definition attachment_line (a : bytes) : str :=
  lit "[EmailNotifier] Attachment size: " ++ str_of_N (N.of_nat (length a))
    ++ lit " bytes".

(** The number of newline code points of a text. *)
Definition saltos (s : str) : nat := count_occ N.eq_dec s 10.

(** ** Notions for the best-effort steps *)

(** An outcome the workflow can log and go on from: a return, or an
    [Exception] whose text standard output can take. *)
Definition printable_failure {A} (r : outcome A) : Prop :=
  match r with
  | Ret _ => True
  | Raise e => is_Exception e = true /\ encodable (exn_str e)
  end.

Definition notify_prefix : str := lit "[GestorCarne] Error enviando notificación: ".
Definition print_prefix : str := lit "[GestorCarne] Error imprimiendo carné: ".

(** The state after a best-effort step: the one the step left, with the
    error line when the step raised. *)
Definition logged {E} (prefix : str) (r : outcome unit * Outside E) : Outside E :=
  match r with
  | (Ret _, o) => o
  | (Raise e, o) => mkOutside (stdout o ++ [prefix ++ exn_str e]) (env o)
  end.

(** A text cut at its newlines: the newline-terminated lines, and what
    follows the last newline. *)
Fixpoint split_nl (s : str) : list str * str :=
  match s with
  | [] => ([], [])
  | c :: r =>
      let (ls, rest) := split_nl r in
      if c =? 10 then ([] :: ls, rest)
      else match ls with
           | [] => ([], c :: rest)
           | l :: ls' => ((c :: l) :: ls', rest)
           end
  end.

(** A member whose name holds a newline. *)
Definition forja : Usuario :=
  Usuario.nuevo (lit "7c9e6679-7425-40de-944b-e07fc1f90ae7") (mkDate 2024 3 7)
    (lit "Eva" ++ nl ++ lit "ID: 0") (lit "eva@uni.edu") (lit "externo").

(** A member whose id holds a lone surrogate. *)
Definition sin_id : Usuario :=
  Usuario.nuevo [0xDC80] (mkDate 2024 3 7)
    (lit "Ana Torres") (lit "ana@uni.edu") (lit "estudiante_pre").

(** A notifier whose error text holds a lone surrogate, one that is
    interrupted, and a card generator that renders nothing. *)
Definition surrogate_notifier {E} : INotifier E :=
  Build_INotifier E (fun _ _ _ _ => raise (Exception (lit "550 " ++ [0xDC80]))).

Definition interrupted_notifier {E} : INotifier E :=
  Build_INotifier E (fun _ _ _ _ => raise (BaseException [])).

Definition blank_generator {E} : ICardGenerator E :=
  Build_ICardGenerator E (fun _ _ => ret []).

(** ** The UTF-8 codec *)

Lemma to_N_byte_of_N (n : N) : n <= 255 -> Byte.to_N (byte_of_N n) = n.
Proof.
  intros Hn. unfold byte_of_N.
  destruct (Byte.of_N n) as [b|] eqn:Hb.
  - now apply Byte.to_of_N.
  - apply Byte.of_N_None_iff in Hb. lia.
Qed.

Ltac decide_tests :=
  repeat match goal with
    | |- context [N.ltb ?a ?b] => destruct (N.ltb_spec a b); try lia
    | |- context [N.leb ?a ?b] => destruct (N.leb_spec a b); try lia
    | |- context [N.eqb ?a ?b] => destruct (N.eqb_spec a b); try lia
    end.

Lemma decode_1 (b0 : byte) (r : bytes) :
  Byte.to_N b0 < 0x80 ->
  utf8_decode (b0 :: r) = (fun t => Byte.to_N b0 :: t) <$> utf8_decode r.
Proof.
  intros H. cbn [utf8_decode]. cbv zeta.
  destruct (N.ltb_spec (Byte.to_N b0) 0x80); [reflexivity | lia].
Qed.

Lemma decode_2 (b0 b1 : byte) (r : bytes) :
  0xC2 <= Byte.to_N b0 <= 0xDF -> 0x80 <= Byte.to_N b1 <= 0xBF ->
  utf8_decode (b0 :: b1 :: r)
  = (fun t => ((Byte.to_N b0 - 0xC0) * 64 + (Byte.to_N b1 - 0x80)) :: t)
      <$> utf8_decode r.
Proof.
  intros H0 H1. cbn [utf8_decode]. cbv zeta. unfold is_cont.
  decide_tests. reflexivity.
Qed.

Lemma decode_3 (b0 b1 b2 : byte) (r : bytes) :
  0xE0 <= Byte.to_N b0 <= 0xEF -> 0x80 <= Byte.to_N b1 <= 0xBF ->
  (Byte.to_N b0 = 0xE0 -> 0xA0 <= Byte.to_N b1) ->
  (Byte.to_N b0 = 0xED -> Byte.to_N b1 <= 0x9F) ->
  0x80 <= Byte.to_N b2 <= 0xBF ->
  utf8_decode (b0 :: b1 :: b2 :: r)
  = (fun t => ((Byte.to_N b0 - 0xE0) * 4096 + (Byte.to_N b1 - 0x80) * 64
               + (Byte.to_N b2 - 0x80)) :: t) <$> utf8_decode r.
Proof.
  intros H0 H1 Ha Hb H2. cbn [utf8_decode]. cbv zeta.
  unfold second_of_3, is_cont.
  decide_tests; reflexivity.
Qed.

Lemma decode_4 (b0 b1 b2 b3 : byte) (r : bytes) :
  0xF0 <= Byte.to_N b0 <= 0xF4 -> 0x80 <= Byte.to_N b1 <= 0xBF ->
  (Byte.to_N b0 = 0xF0 -> 0x90 <= Byte.to_N b1) ->
  (Byte.to_N b0 = 0xF4 -> Byte.to_N b1 <= 0x8F) ->
  0x80 <= Byte.to_N b2 <= 0xBF -> 0x80 <= Byte.to_N b3 <= 0xBF ->
  utf8_decode (b0 :: b1 :: b2 :: b3 :: r)
  = (fun t => ((Byte.to_N b0 - 0xF0) * 262144 + (Byte.to_N b1 - 0x80) * 4096
               + (Byte.to_N b2 - 0x80) * 64 + (Byte.to_N b3 - 0x80)) :: t)
      <$> utf8_decode r.
Proof.
  intros H0 H1 Ha Hb H2 H3. cbn [utf8_decode]. cbv zeta.
  unfold second_of_4, is_cont.
  decide_tests; reflexivity.
Qed.

Lemma is_scalar_spec (c : N) :
  is_scalar c = true <-> (c < 0xD800 \/ 0xDFFF < c < 0x110000).
Proof.
  unfold is_scalar, is_surrogate.
  destruct (N.ltb_spec c 0x110000), (N.leb_spec 0xD800 c), (N.leb_spec c 0xDFFF);
    cbn; split; intros; try discriminate; try reflexivity; lia.
Qed.

(* Division by the constants of the encoding, for [lia]. *)
Ltac Zify.zify_post_hook ::= Z.div_mod_to_equations.

Ltac split_div c k :=
  let H := fresh in pose proof (N.div_mod c k ltac:(lia)) as H;
  let H' := fresh in pose proof (N.mod_lt c k ltac:(lia)) as H'.

Lemma utf8_decode_encode_cp (c : N) (bs : bytes) :
  is_scalar c = true ->
  utf8_decode (utf8_encode_cp c ++ bs) = (fun t => c :: t) <$> utf8_decode bs.
Proof.
  intros Hc. apply is_scalar_spec in Hc. unfold utf8_encode_cp.
  split_div c 64. split_div (c / 64) 64. split_div c 4096.
  split_div (c / 4096) 64. split_div c 262144.
  destruct (N.ltb_spec c 0x80) as [Hr1|Hr1];
    [|destruct (N.ltb_spec c 0x800) as [Hr2|Hr2];
      [|destruct (N.ltb_spec c 0x10000) as [Hr3|Hr3]]]; cbn [app].
  - rewrite decode_1; rewrite to_N_byte_of_N by lia; [reflexivity | lia].
  - rewrite decode_2; rewrite !to_N_byte_of_N by lia; try lia.
    replace ((192 + c / 64 - 192) * 64 + (128 + c mod 64 - 128)) with c by lia.
    reflexivity.
  - rewrite decode_3; rewrite !to_N_byte_of_N by lia; try lia.
    replace ((224 + c / 4096 - 224) * 4096 + (128 + (c / 64) mod 64 - 128) * 64
             + (128 + c mod 64 - 128)) with c by lia.
    reflexivity.
  - rewrite decode_4; rewrite !to_N_byte_of_N by lia; try lia.
    replace ((240 + c / 262144 - 240) * 262144
             + (128 + (c / 4096) mod 64 - 128) * 4096
             + (128 + (c / 64) mod 64 - 128) * 64 + (128 + c mod 64 - 128))
      with c by lia.
    reflexivity.
Qed.

Ltac Zify.zify_post_hook ::= idtac.

Lemma utf8_decode_encode (s : str) (b : bytes) :
  utf8_encode_all s = Some b -> utf8_decode b = Some s.
Proof.
  revert b. induction s as [|c r IH]; intros b; cbn [utf8_encode_all].
  - intros [= <-]. reflexivity.
  - destruct (is_scalar c) eqn:Hc; [|discriminate].
    destruct (utf8_encode_all r) as [b'|]; [|discriminate].
    intros [= <-]. rewrite utf8_decode_encode_cp by assumption.
    rewrite (IH b' eq_refl). reflexivity.
Qed.

Lemma utf8_encode_all_encodable (s : str) :
  encodable s <-> exists b, utf8_encode_all s = Some b.
Proof.
  unfold encodable. induction s as [|c r IH]; cbn [utf8_encode_all].
  - split; [intros _; now exists [] | constructor].
  - split.
    + intros H. inversion H as [|? ? Hc Hr]; subst. rewrite Hc.
      apply IH in Hr as [b Hb]. rewrite Hb. now eexists.
    + intros [b Hb]. destruct (is_scalar c) eqn:Hc; [|discriminate].
      constructor; [assumption|]. apply IH.
      destruct (utf8_encode_all r) as [b'|]; [now exists b' | discriminate].
Qed.

(** ** The validator *)

Lemma tipos_categorias (t : str) : t ∈ UsuarioValidator.tipos <-> t ∈ categorias.
Proof.
  unfold UsuarioValidator.tipos, categorias.
  rewrite !elem_of_union, !elem_of_singleton, !elem_of_cons, elem_of_nil.
  tauto.
Qed.

Lemma nombre_test (u : Usuario) :
  bool_decide (Usuario.nombre u = [])
  || (length (strip (Usuario.nombre u)) <? 2)%nat = true <-> nombre_malo u.
Proof.
  unfold nombre_malo. rewrite orb_true_iff, bool_decide_eq_true, Nat.ltb_lt.
  reflexivity.
Qed.

Lemma correo_test (u : Usuario) :
  negb (bool_decide (64 ∈ Usuario.correo u))
  || (length (strip (Usuario.correo u)) <? 5)%nat = true <-> correo_malo u.
Proof.
  unfold correo_malo.
  rewrite orb_true_iff, negb_true_iff, bool_decide_eq_false, Nat.ltb_lt.
  reflexivity.
Qed.

Lemma tipo_test (u : Usuario) :
  negb (bool_decide (Usuario.tipo u ∈ UsuarioValidator.tipos)) = true
  <-> tipo_malo u.
Proof.
  unfold tipo_malo.
  rewrite negb_true_iff, bool_decide_eq_false, tipos_categorias. reflexivity.
Qed.

(** The outcome of the three checks, in the order the code makes them. *)
Lemma validar_cases {S} (u : Usuario) (s : S) :
  (nombre_malo u /\
     UsuarioValidator.validar u s = (Raise (ValueError (lit "Nombre inválido")), s))
  \/ (~ nombre_malo u /\ correo_malo u /\
     UsuarioValidator.validar u s = (Raise (ValueError (lit "Correo inválido")), s))
  \/ (~ nombre_malo u /\ ~ correo_malo u /\ tipo_malo u /\
     UsuarioValidator.validar u s
     = (Raise (ValueError (lit "Tipo de usuario desconocido: " ++ Usuario.tipo u)), s))
  \/ (~ miembro_invalido u /\ UsuarioValidator.validar u s = (Ret tt, s)).
Proof.
  pose proof (nombre_test u) as Hn. pose proof (correo_test u) as Hc.
  pose proof (tipo_test u) as Ht.
  unfold UsuarioValidator.validar, bind, miembro_invalido.
  destruct (bool_decide (Usuario.nombre u = []) || _) eqn:En.
  { left. split; [now apply Hn | reflexivity]. }
  right.
  assert (~ nombre_malo u) as Hn' by (rewrite <- Hn; discriminate).
  cbn [ret].
  destruct (negb (bool_decide (64 ∈ Usuario.correo u)) || _) eqn:Ec.
  { left. split; [assumption|]. split; [now apply Hc | reflexivity]. }
  right.
  assert (~ correo_malo u) as Hc' by (rewrite <- Hc; discriminate).
  cbn [ret].
  destruct (negb (bool_decide (Usuario.tipo u ∈ UsuarioValidator.tipos))) eqn:Et.
  { left. repeat (split; [assumption|]). split; [now apply Ht | reflexivity]. }
  right.
  assert (~ tipo_malo u) as Ht' by (rewrite <- Ht; discriminate).
  split; [tauto | reflexivity].
Qed.

Lemma validar_state {S} (u : Usuario) (s : S) :
  snd (UsuarioValidator.validar u s) = s.
Proof.
  destruct (validar_cases u s) as [[_ ->]|[(_ & _ & ->)|[(_ & _ & _ & ->)|[_ ->]]]];
    reflexivity.
Qed.

Lemma pasa_validacion_iff (u : Usuario) :
  pasa_validacion u <-> ~ miembro_invalido u.
Proof.
  unfold pasa_validacion.
  destruct (validar_cases u tt)
    as [[H ->]|[(H1 & H & ->)|[(H1 & H2 & H & ->)|[H ->]]]];
    unfold miembro_invalido in *; split; intros; try discriminate; tauto.
Qed.

Lemma pasa_validacion_run {S} (u : Usuario) (s : S) :
  pasa_validacion u -> UsuarioValidator.validar u s = (Ret tt, s).
Proof.
  intros H%pasa_validacion_iff.
  destruct (validar_cases u s)
    as [[H' _]|[(_ & H' & _)|[(_ & _ & H' & _)|[_ ->]]]];
    unfold miembro_invalido in *; try tauto.
Qed.

Lemma miembro_invalido_run {S} (u : Usuario) (s : S) :
  miembro_invalido u ->
  exists msg, UsuarioValidator.validar u s = (Raise (ValueError msg), s).
Proof.
  intros H.
  destruct (validar_cases u s)
    as [[_ ->]|[(_ & _ & ->)|[(_ & _ & _ & ->)|[H' _]]]];
    try (eexists; reflexivity). contradiction.
Qed.

(** ** The fee factory *)

Lemma mapping_dom : dom CostoFactory._mapping = UsuarioValidator.tipos.
Proof. vm_compute. reflexivity. Qed.

Lemma mapping_lookup_None (t : str) :
  t ∉ categorias -> CostoFactory._mapping !! t = None.
Proof.
  intros H. apply not_elem_of_dom. rewrite mapping_dom, tipos_categorias.
  exact H.
Qed.

Lemma mapping_lookup_Some (t : str) :
  t ∈ categorias -> exists cls, CostoFactory._mapping !! t = Some cls.
Proof.
  intros H. apply tipos_categorias in H. rewrite <- mapping_dom in H.
  apply elem_of_dom in H as [cls H]. now exists cls.
Qed.

Lemma get_costo_strategy_valid (u : Usuario) :
  pasa_validacion u ->
  exists cls, CostoFactory._mapping !! Usuario.tipo u = Some cls
    /\ forall S (s : S),
         CostoFactory.get_costo_strategy (Usuario.tipo u) s = (Ret cls, s).
Proof.
  intros H%pasa_validacion_iff.
  destruct (mapping_lookup_Some (Usuario.tipo u)) as [cls Hcls].
  { destruct (decide (Usuario.tipo u ∈ categorias)) as [Hin|Hin]; [exact Hin|].
    exfalso. apply H. right. right. exact Hin. }
  exists cls. split; [exact Hcls|]. intros S s.
  unfold CostoFactory.get_costo_strategy. rewrite Hcls. reflexivity.
Qed.

(** ** Running the workflow *)

(** A failing validator ends the run at once, with the validator's own
    effects and nothing else. *)
Lemma emitir_carne_validator_raises {E} (g : GestorCarne E) (u : Usuario)
    (w : World E) (e : exn) (o : Outside E) :
  validar (GestorCarne.validator g) u (outside w) = (Raise e, o) ->
  GestorCarne.emitir_carne g u w = (Raise e, mkWorld o (store w)).
Proof.
  intros H. unfold GestorCarne.emitir_carne, bind, lift. rewrite H. reflexivity.
Qed.

Lemma bind_Ret {S A B} (m : prog S A) (k : A -> prog S B) (s s' : S) (a : A) :
  m s = (Ret a, s') -> bind m k s = k a s'.
Proof. intros H. unfold bind. rewrite H. reflexivity. Qed.

Lemma bind_Raise {S A B} (m : prog S A) (k : A -> prog S B) (s s' : S) (e : exn) :
  m s = (Raise e, s') -> bind m k s = (Raise e, s').
Proof. intros H. unfold bind. rewrite H. reflexivity. Qed.

Lemma lift_run {E A} (m : prog (Outside E) A) (w : World E) :
  lift m w = (fst (m (outside w)), mkWorld (snd (m (outside w))) (store w)).
Proof. unfold lift. destruct (m (outside w)). reflexivity. Qed.

(** A card generator that raises ends the run of a valid member before the
    repository is reached. *)
Lemma emitir_carne_render_raises {E} (rp : IRepository E) (n : INotifier E)
    (cg : ICardGenerator E) (p : IPrinter E) (u : Usuario) (w : World E)
    (cls : ICostoCarne) (e : exn) (o1 : Outside E) :
  pasa_validacion u ->
  CostoFactory._mapping !! Usuario.tipo u = Some cls ->
  generar cg u (calcular cls u) (outside w) = (Raise e, o1) ->
  GestorCarne.emitir_carne (GestorCarne.mk UsuarioValidator.new rp n cg p) u w
  = (Raise e, mkWorld o1 (store w)).
Proof.
  intros Hv Hcls Hg.
  unfold GestorCarne.emitir_carne.
  cbn [GestorCarne.validator GestorCarne.repo GestorCarne.notifier
       GestorCarne.card_generator GestorCarne.printer].
  erewrite bind_Ret; cycle 1.
  { rewrite lift_run. cbn [UsuarioValidator.new validar].
    rewrite (pasa_validacion_run u (outside w) Hv). reflexivity. }
  erewrite bind_Ret; cycle 1.
  { unfold CostoFactory.get_costo_strategy. rewrite Hcls. reflexivity. }
  cbv zeta. cbn [fst snd].
  erewrite bind_Raise; [reflexivity|].
  rewrite lift_run. cbn [outside]. rewrite Hg. reflexivity.
Qed.

(** ** Text of numbers and dates *)

Lemma is_digit_scalar (c : N) : is_digit c = true -> is_scalar c = true.
Proof.
  unfold is_digit, is_scalar, is_surrogate. intros H.
  apply andb_true_iff in H as [H1 H2]. apply N.leb_le in H1, H2.
  decide_tests; try reflexivity.
Qed.

Lemma digits_of_uint_digits (d : Decimal.uint) :
  Forall (fun c => is_digit c = true) (digits_of_uint d).
Proof. induction d; cbn [digits_of_uint]; constructor; auto. Qed.

Lemma str_of_N_digits (n : N) : Forall (fun c => is_digit c = true) (str_of_N n).
Proof. apply digits_of_uint_digits. Qed.

Lemma str_of_N_nonempty (n : N) : str_of_N n <> [].
Proof.
  unfold str_of_N. destruct n as [|p]; [discriminate|]. cbn [N.to_uint].
  pose proof (Unsigned.to_uint_nonnil p) as H.
  destruct (Pos.to_uint p); [congruence | discriminate ..].
Qed.

Lemma zfill_digits (w : nat) (s : str) :
  Forall (fun c => is_digit c = true) s ->
  Forall (fun c => is_digit c = true) (zfill w s).
Proof.
  intros H. unfold zfill. apply Forall_app. split; [|exact H].
  apply Forall_replicate. reflexivity.
Qed.

(** A property checked on every number below [k]. *)
Lemma below_forallb (P : N -> bool) (k : N) :
  forallb P (map N.of_nat (seq 0 (N.to_nat k))) = true ->
  forall n, n < k -> P n = true.
Proof.
  intros H n Hn. rewrite forallb_forall in H. apply H.
  apply in_map_iff. exists (N.to_nat n). split; [apply N2Nat.id|].
  apply in_seq. lia.
Qed.

Lemma zfill2_shape (r : N) :
  r < 100 ->
  exists d1 d2, zfill 2 (str_of_N r) = [d1; d2]
                /\ is_digit d1 = true /\ is_digit d2 = true.
Proof.
  intros Hr.
  pose proof (below_forallb
    (fun r => match zfill 2 (str_of_N r) with
              | [d1; d2] => is_digit d1 && is_digit d2
              | _ => false
              end) 100 ltac:(vm_compute; reflexivity) r Hr) as H.
  cbv beta in H.
  destruct (zfill 2 (str_of_N r)) as [|d1 [|d2 [|? ?]]]; try discriminate.
  apply andb_true_iff in H as [H1 H2]. now exists d1, d2.
Qed.

Lemma zfill4_shape (y : N) :
  y < 10000 ->
  exists y1 y2 y3 y4, zfill 4 (str_of_N y) = [y1; y2; y3; y4]
    /\ Forall (fun c => is_digit c = true) [y1; y2; y3; y4].
Proof.
  intros Hy.
  pose proof (below_forallb
    (fun y => match zfill 4 (str_of_N y) with
              | [y1; y2; y3; y4] => forallb is_digit [y1; y2; y3; y4]
              | _ => false
              end) 10000 ltac:(vm_compute; reflexivity) y Hy) as H.
  cbv beta in H.
  destruct (zfill 4 (str_of_N y)) as [|y1 [|y2 [|y3 [|y4 [|? ?]]]]];
    try discriminate.
  exists y1, y2, y3, y4. split; [reflexivity|].
  cbn [forallb] in H. rewrite !andb_true_iff in H.
  destruct H as (? & ? & ? & ? & _). repeat constructor; assumption.
Qed.

Lemma isoformat_shape (d : date) :
  date_in_range d -> iso_8601_date (isoformat d).
Proof.
  intros (Hy & Hm & Hd). unfold isoformat, iso_8601_date.
  destruct (zfill4_shape (year d)) as (y1 & y2 & y3 & y4 & -> & Hys); [lia|].
  destruct (zfill2_shape (month d)) as (m1 & m2 & -> & Hm1 & Hm2); [lia|].
  destruct (zfill2_shape (day d)) as (d1 & d2 & -> & Hd1 & Hd2); [lia|].
  exists y1, y2, y3, y4, m1, m2, d1, d2. split; [reflexivity|].
  inversion Hys as [|? ? ? Hys1]; subst. inversion Hys1 as [|? ? ? Hys2]; subst.
  inversion Hys2 as [|? ? ? Hys3]; subst. inversion Hys3; subst.
  repeat constructor; assumption.
Qed.

Lemma fixed2_shape (neg : bool) (q : N) : two_decimals (fixed2 neg q).
Proof.
  unfold fixed2, two_decimals.
  destruct (zfill2_shape (q mod 100)) as (d1 & d2 & -> & Hd1 & Hd2).
  { apply N.mod_lt. discriminate. }
  exists (if neg then [45] else []), (str_of_N (q / 100)), d1, d2.
  split; [reflexivity|]. split; [destruct neg; auto|].
  split; [apply str_of_N_nonempty|]. split; [apply str_of_N_digits|]. auto.
Qed.

Lemma format_2f_shape (x : float) :
  is_finite x = true -> two_decimals (format_2f x).
Proof.
  unfold is_finite, format_2f, Prim2SF. intros H.
  apply negb_true_iff, orb_false_iff in H as [-> ->].
  destruct (is_zero x); [apply fixed2_shape|].
  destruct (Z.frexp x) as [r ex].
  destruct (shr_fexp prec emax (Uint63Axioms.to_Z (normfr_mantissa r))
              (ex - prec)%Z loc_Exact) as [shr e'].
  destruct (shr_m shr); apply fixed2_shape.
Qed.

(** ** What can be encoded *)

Lemma encodable_forallb (s : str) : forallb is_scalar s = true -> encodable s.
Proof.
  intros H. apply Forall_forall. intros c Hc%list_elem_of_In.
  rewrite forallb_forall in H. auto.
Qed.

Lemma encodable_app (s t : str) : encodable s -> encodable t -> encodable (s ++ t).
Proof. intros Hs Ht. apply Forall_app. split; assumption. Qed.

Lemma encodable_digits (s : str) :
  Forall (fun c => is_digit c = true) s -> encodable s.
Proof. intros H. eapply Forall_impl; [exact H | exact is_digit_scalar]. Qed.

Lemma encodable_zfill (w : nat) (n : N) : encodable (zfill w (str_of_N n)).
Proof. apply encodable_digits, zfill_digits, str_of_N_digits. Qed.

Lemma encodable_str_of_N (n : N) : encodable (str_of_N n).
Proof. apply encodable_digits, str_of_N_digits. Qed.

(** Splits a concatenation and closes each part with [leaf]. *)
Ltac encodable_parts leaf :=
  first [ leaf
        | apply encodable_app; [encodable_parts leaf | encodable_parts leaf] ].

Ltac encodable_leaf :=
  first [ assumption
        | apply encodable_zfill
        | apply encodable_str_of_N
        | apply encodable_forallb; reflexivity ].

Lemma encodable_fixed2 (neg : bool) (q : N) : encodable (fixed2 neg q).
Proof. unfold fixed2. destruct neg; encodable_parts encodable_leaf. Qed.

Lemma encodable_format_2f (x : float) : encodable (format_2f x).
Proof.
  unfold format_2f. destruct (Prim2SF x) as [neg|neg| |neg m e].
  - apply encodable_fixed2.
  - destruct neg; apply encodable_forallb; reflexivity.
  - apply encodable_forallb; reflexivity.
  - apply encodable_fixed2.
Qed.

Lemma encodable_isoformat (d : date) : encodable (isoformat d).
Proof. unfold isoformat. encodable_parts encodable_leaf. Qed.

Lemma contenido_lines (u : Usuario) (fee : float) :
  SimpleCardGenerator.contenido u fee = unlines (card_lines u fee).
Proof.
  unfold SimpleCardGenerator.contenido, unlines, card_lines.
  cbn [map concat]. rewrite <- !app_assoc, app_nil_r. reflexivity.
Qed.

Lemma encodable_contenido (u : Usuario) (fee : float) :
  encodable (Usuario.nombre u) -> encodable (Usuario.id u) ->
  encodable (Usuario.tipo u) ->
  encodable (SimpleCardGenerator.contenido u fee).
Proof.
  intros Hn Hi Ht. unfold SimpleCardGenerator.contenido.
  encodable_parts
    ltac:(first [ apply encodable_format_2f | apply encodable_isoformat
                | encodable_leaf ]).
Qed.

Lemma world_eta {E} (w : World E) : mkWorld (outside w) (store w) = w.
Proof. destruct w. reflexivity. Qed.

(** No collaborator is called when the validator rejects the member: the
    call log of the spies stays empty. *)
Example spies_see_no_call_on_rejection :
  GestorCarne.emitir_carne spy_gestor equis (mkWorld (mkOutside [] []) [])
  = (Raise (ValueError (lit "Nombre inválido")), mkWorld (mkOutside [] []) []).
Proof. reflexivity. Qed.

(** On an accepted member they are called once each, in the order of the
    workflow. *)
Example spies_see_the_workflow :
  env (outside (snd (GestorCarne.emitir_carne spy_gestor ana
                       (mkWorld (mkOutside [] []) []))))
  = ["card_generator"; "repo"; "notifier"; "printer"]%string.
Proof. vm_compute. reflexivity. Qed.

(** ** Claims *)

(** C1. When validation fails, [emitir_carne] stops with the validator's
    ValueError (the InvalidMember of the specification) and the world is
    the one it started from, whatever the repository, notifier, card
    generator and printer are: none of them ran, and nothing was stored. *)
Theorem invalid_member_aborts_workflow {E} (rp : IRepository E)
    (n : INotifier E) (cg : ICardGenerator E) (p : IPrinter E)
    (u : Usuario) (w : World E) :
  miembro_invalido u ->
  exists msg,
    GestorCarne.emitir_carne (GestorCarne.mk UsuarioValidator.new rp n cg p) u w
    = (Raise (ValueError msg), w).
Proof.
  intros H.
  destruct (miembro_invalido_run u (outside w) H) as [msg Hmsg].
  exists msg. rewrite <- (world_eta w) at 2.
  apply emitir_carne_validator_raises. exact Hmsg.
Qed.

Lemma invalid_member_aborts_workflow_witness :
  miembro_invalido equis /\
  exists msg,
    GestorCarne.emitir_carne demo_gestor equis mundo_vacio
    = (Raise (ValueError msg), mundo_vacio).
Proof.
  assert (H : miembro_invalido equis).
  { left. right. vm_compute. lia. }
  split; [exact H|].
  exact (invalid_member_aborts_workflow InMemoryRepository.new
           (EmailNotifier.new (lit "smtp.miuniversidad.edu") 587)
           SimpleCardGenerator.new ConsolePrinter.new equis mundo_vacio H).
Defined.

(** C3. [feeFor] gives 10.0, 12.0, 5.0, 6.0 and 20.0 on the five
    categories, fails with the factory's ValueError (UnknownCategory) on
    every other text, and leaves the state as it was. *)
Theorem fee_table {S} (u : Usuario) (s : S) :
  feeFor (lit "estudiante_pre") u s = (Ret 10%float, s)
  /\ feeFor (lit "estudiante_pos") u s = (Ret 12%float, s)
  /\ feeFor (lit "docente") u s = (Ret 5%float, s)
  /\ feeFor (lit "administrativo") u s = (Ret 6%float, s)
  /\ feeFor (lit "externo") u s = (Ret 20%float, s)
  /\ (forall t, t ∉ categorias ->
        feeFor t u s
        = (Raise (ValueError (lit "No hay estrategia de costo para tipo: " ++ t)), s))
  /\ (forall t, snd (feeFor t u s) = s).
Proof.
  repeat split; try reflexivity.
  - intros t Ht. unfold feeFor, CostoFactory.get_costo_strategy.
    rewrite (mapping_lookup_None t Ht). reflexivity.
  - intros t. unfold feeFor, CostoFactory.get_costo_strategy, bind.
    destruct (CostoFactory._mapping !! t); reflexivity.
Qed.

(** C4. [validar] raises its ValueError exactly on the members the
    specification calls invalid, returns normally exactly on the others,
    and never changes the state. *)
Theorem validate_contract {S} (u : Usuario) (s : S) :
  ((exists msg, UsuarioValidator.validar u s = (Raise (ValueError msg), s))
     <-> miembro_invalido u)
  /\ (UsuarioValidator.validar u s = (Ret tt, s) <-> ~ miembro_invalido u)
  /\ snd (UsuarioValidator.validar u s) = s.
Proof.
  split; [|split].
  - split; [|apply miembro_invalido_run].
    intros [msg Hmsg].
    destruct (validar_cases u s)
      as [[H _]|[(_ & H & _)|[(_ & _ & H & _)|[_ H]]]];
      unfold miembro_invalido; try tauto.
    rewrite H in Hmsg. discriminate.
  - split.
    + intros H Hbad. destruct (miembro_invalido_run u s Hbad) as [msg Hmsg].
      rewrite H in Hmsg. discriminate.
    + intros H. apply pasa_validacion_run, pasa_validacion_iff, H.
  - apply validar_state.
Qed.



(** C8. A member with a bad name is rejected with the name error whatever
    its email and category are, before anything is stored; the email is
    looked at only once the name is good, and the category after both. *)
Theorem checks_run_in_order {E} (rp : IRepository E) (n : INotifier E)
    (cg : ICardGenerator E) (p : IPrinter E) (u : Usuario) (w : World E) :
  nombre_malo u ->
  GestorCarne.emitir_carne (GestorCarne.mk UsuarioValidator.new rp n cg p) u w
  = (Raise (ValueError (lit "Nombre inválido")), w)
  /\ (forall correo tipo,
        UsuarioValidator.validar
          (Usuario.mk (Usuario.id u) (Usuario.nombre u) correo tipo
             (Usuario.fecha_registro u)) (outside w)
        = (Raise (ValueError (lit "Nombre inválido")), outside w))
  /\ (forall u', ~ nombre_malo u' -> correo_malo u' ->
        GestorCarne.emitir_carne (GestorCarne.mk UsuarioValidator.new rp n cg p) u' w
        = (Raise (ValueError (lit "Correo inválido")), w)).
Proof.
  intros H. split; [|split].
  - rewrite <- (world_eta w) at 2. apply emitir_carne_validator_raises.
    cbn [GestorCarne.validator UsuarioValidator.new validar].
    destruct (validar_cases u (outside w))
      as [[_ ->]|[(H' & _)|[(H' & _)|[H' _]]]];
      unfold miembro_invalido in *; try reflexivity; tauto.
  - intros correo tipo.
    set (u' := Usuario.mk _ _ _ _ _).
    destruct (validar_cases u' (outside w))
      as [[_ ->]|[(H' & _)|[(H' & _)|[H' _]]]];
      unfold miembro_invalido, nombre_malo in *; cbn in *; try reflexivity; tauto.
  - intros u' Hn Hc.
    rewrite <- (world_eta w) at 2. apply emitir_carne_validator_raises.
    cbn [GestorCarne.validator UsuarioValidator.new validar].
    destruct (validar_cases u' (outside w))
      as [[H' _]|[(_ & _ & ->)|[(_ & H' & _)|[H' _]]]];
      unfold miembro_invalido in *; try reflexivity; tauto.
Qed.

Lemma checks_run_in_order_witness :
  nombre_malo equis /\ correo_malo equis /\
  GestorCarne.emitir_carne demo_gestor equis mundo_vacio
  = (Raise (ValueError (lit "Nombre inválido")), mundo_vacio).
Proof.
  assert (H : nombre_malo equis) by (right; vm_compute; lia).
  split; [exact H|]. split; [right; vm_compute; lia|].
  exact (proj1 (checks_run_in_order InMemoryRepository.new
           (EmailNotifier.new (lit "smtp.miuniversidad.edu") 587)
           SimpleCardGenerator.new ConsolePrinter.new equis mundo_vacio H)).
Defined.

Lemma feeFor_valid {S} (u : Usuario) (s : S) (fee : float) (s' : S) :
  feeFor (Usuario.tipo u) u s = (Ret fee, s') ->
  exists cls, CostoFactory._mapping !! Usuario.tipo u = Some cls
              /\ fee = calcular cls u.
Proof.
  unfold feeFor, CostoFactory.get_costo_strategy, bind.
  destruct (CostoFactory._mapping !! Usuario.tipo u) as [cls|]; cbn.
  - intros [= <- _]. now exists cls.
  - discriminate.
Qed.

(** C7. The card generator reads nothing but its two arguments: called in
    any two states on the same member and fee it gives the same outcome,
    byte for byte, and it changes neither state. *)
Theorem generar_is_deterministic {S1 S2} (u : Usuario) (fee : float)
    (s1 : S1) (s2 : S2) :
  fst (SimpleCardGenerator.generar u fee s1)
  = fst (SimpleCardGenerator.generar u fee s2)
  /\ snd (SimpleCardGenerator.generar u fee s1) = s1
  /\ snd (SimpleCardGenerator.generar u fee s2) = s2.
Proof.
  unfold SimpleCardGenerator.generar, str_encode.
  destruct (utf8_encode_all (SimpleCardGenerator.contenido u fee));
    repeat split; reflexivity.
Qed.

(** ** Trimming *)

Lemma lstrip_split (s : str) :
  exists sp, s = sp ++ lstrip s /\ Forall (fun c => isspace c = true) sp.
Proof.
  induction s as [|c r (sp & Hr & Hsp)]; cbn [lstrip].
  - exists []. split; [reflexivity | constructor].
  - destruct (isspace c) eqn:Hc.
    + exists (c :: sp). split; [cbn; congruence | constructor; assumption].
    + exists []. split; [reflexivity | constructor].
Qed.

Lemma lstrip_head (s : str) (c : N) (r : str) :
  lstrip s = c :: r -> isspace c = false.
Proof.
  induction s as [|d t IH]; cbn [lstrip]; [discriminate|].
  destruct (isspace d) eqn:Hd; [exact IH|]. intros [= <- _]. exact Hd.
Qed.

Lemma lstrip_fixed (c : N) (r : str) :
  isspace c = false -> lstrip (c :: r) = c :: r.
Proof. intros H. cbn [lstrip]. rewrite H. reflexivity. Qed.

Lemma rstrip_split (s : str) :
  exists sp, s = rstrip s ++ sp /\ Forall (fun c => isspace c = true) sp.
Proof.
  unfold rstrip. destruct (lstrip_split (rev s)) as (sp & Hs & Hsp).
  exists (rev sp). split.
  - rewrite <- rev_app_distr, <- Hs, rev_involutive. reflexivity.
  - apply Forall_rev. exact Hsp.
Qed.

Lemma rstrip_last (s : str) (r : str) (c : N) :
  rstrip s = r ++ [c] -> isspace c = false.
Proof.
  unfold rstrip. intros H.
  apply (f_equal (@rev N)) in H. rewrite rev_involutive, rev_app_distr in H.
  cbn in H. eapply lstrip_head. exact H.
Qed.

Lemma rstrip_fixed (r : str) (c : N) :
  isspace c = false -> rstrip (r ++ [c]) = r ++ [c].
Proof.
  intros H. unfold rstrip. rewrite rev_app_distr. cbn [rev app].
  rewrite lstrip_fixed by exact H.
  change (c :: rev r) with ([c] ++ rev r).
  rewrite rev_app_distr, rev_involutive. reflexivity.
Qed.

Lemma rstrip_nil : rstrip [] = [].
Proof. reflexivity. Qed.

(** A text is its trimmed form between two runs of whitespace. *)
Lemma strip_split (s : str) :
  exists sp1 sp2, s = sp1 ++ strip s ++ sp2
    /\ Forall (fun c => isspace c = true) sp1
    /\ Forall (fun c => isspace c = true) sp2.
Proof.
  destruct (lstrip_split s) as (sp1 & H1 & Hsp1).
  destruct (rstrip_split (lstrip s)) as (sp2 & H2 & Hsp2).
  exists sp1, sp2. unfold strip. rewrite <- H2. auto.
Qed.

Lemma strip_head (s : str) (c : N) (r : str) :
  strip s = c :: r -> isspace c = false.
Proof.
  unfold strip. intros H.
  destruct (rstrip_split (lstrip s)) as (sp & Hs & _).
  rewrite H in Hs. cbn in Hs. eapply lstrip_head. exact Hs.
Qed.

Lemma strip_last (s : str) (r : str) (c : N) :
  strip s = r ++ [c] -> isspace c = false.
Proof. unfold strip. apply rstrip_last. Qed.

Lemma strip_strip (s : str) : strip (strip s) = strip s.
Proof.
  destruct (strip s) as [|c r] eqn:Hs; [reflexivity|].
  pose proof (strip_head s c r Hs) as Hc.
  unfold strip at 1. rewrite lstrip_fixed by exact Hc.
  destruct (exists_last (l := c :: r) ltac:(discriminate)) as (r' & d & Hr).
  rewrite Hr. apply rstrip_fixed.
  apply (strip_last s r' d). congruence.
Qed.

Lemma strip_length (s : str) : (length (strip s) <= length s)%nat.
Proof.
  destruct (strip_split s) as (sp1 & sp2 & Hs & _).
  rewrite Hs at 2. rewrite !length_app. lia.
Qed.

Lemma no_blancos_spaces (sp : str) :
  Forall (fun c => isspace c = true) sp -> no_blancos sp = [].
Proof.
  induction 1 as [|c r Hc _ IH]; [reflexivity|].
  unfold no_blancos in *. cbn [List.filter]. rewrite Hc. exact IH.
Qed.

Lemma no_blancos_app (s t : str) :
  no_blancos (s ++ t) = no_blancos s ++ no_blancos t.
Proof. unfold no_blancos. apply List.filter_app. Qed.

Lemma no_blancos_strip (s : str) : no_blancos (strip s) = no_blancos s.
Proof.
  destruct (strip_split s) as (sp1 & sp2 & Hs & H1 & H2).
  rewrite Hs at 2. rewrite !no_blancos_app.
  rewrite (no_blancos_spaces sp1 H1), (no_blancos_spaces sp2 H2), app_nil_r.
  reflexivity.
Qed.

(** A trimmed text of two or more code points starts and ends with one
    that is not whitespace. *)
Lemma strip_two_no_blancos (s : str) :
  (2 <= length (strip s))%nat -> (2 <= length (no_blancos s))%nat.
Proof.
  intros H. rewrite <- no_blancos_strip.
  destruct (strip s) as [|c r] eqn:Hs; [cbn in H; lia|].
  pose proof (strip_head s c r Hs) as Hc.
  destruct r as [|d r]; [cbn in H; lia|].
  destruct (exists_last (l := d :: r) ltac:(discriminate)) as (r' & e & Hr).
  rewrite Hr in *.
  assert (He : isspace e = false).
  { apply (strip_last s (c :: r') e). rewrite Hs. reflexivity. }
  change (c :: r' ++ [e]) with ([c] ++ r' ++ [e]).
  rewrite !no_blancos_app, !length_app.
  unfold no_blancos. cbn [List.filter]. rewrite Hc, He. cbn. lia.
Qed.

Lemma arroba_strip (s : str) : 64 ∈ strip s <-> 64 ∈ s.
Proof.
  destruct (strip_split s) as (sp1 & sp2 & Hs & H1 & H2).
  rewrite Hs at 2. rewrite !elem_of_app.
  assert (Hno : forall sp, Forall (fun c => isspace c = true) sp -> 64 ∉ sp).
  { intros sp Hsp Hin. rewrite Forall_forall in Hsp.
    specialize (Hsp 64 Hin). discriminate. }
  specialize (Hno sp1 H1) as Hn1. specialize (Hno sp2 H2) as Hn2. tauto.
Qed.

(** ** More on the validator *)

(** X1. What every accepted member satisfies: the name holds two code points
    that are not whitespace, the email holds an at sign and is five code
    points long or more, the category is one of the five. *)
Theorem accepted_member_fields (u : Usuario) :
  pasa_validacion u ->
  (2 <= length (no_blancos (Usuario.nombre u)))%nat
  /\ 64 ∈ Usuario.correo u
  /\ (5 <= length (Usuario.correo u))%nat
  /\ Usuario.tipo u ∈ categorias.
Proof.
  intros H%pasa_validacion_iff.
  unfold miembro_invalido, nombre_malo, correo_malo, tipo_malo in H.
  split; [|split; [|split]].
  - apply strip_two_no_blancos. lia.
  - destruct (decide (64 ∈ Usuario.correo u)); tauto.
  - pose proof (strip_length (Usuario.correo u)). lia.
  - destruct (decide (Usuario.tipo u ∈ categorias)); tauto.
Qed.

Lemma accepted_member_fields_witness :
  (2 <= length (no_blancos (Usuario.nombre ana)))%nat
  /\ 64 ∈ Usuario.correo ana
  /\ (5 <= length (Usuario.correo ana))%nat
  /\ Usuario.tipo ana ∈ categorias.
Proof. exact (accepted_member_fields ana eq_refl). Defined.

(** X2. Whitespace around the name and the email never changes the verdict:
    the validator answers on the trimmed member as on the member itself,
    with the same error. *)
Theorem validar_ignores_outer_whitespace {S} (u : Usuario) (s : S) :
  UsuarioValidator.validar (recortado u) s = UsuarioValidator.validar u s.
Proof.
  unfold UsuarioValidator.validar, recortado.
  cbn [Usuario.nombre Usuario.correo Usuario.tipo].
  rewrite !strip_strip.
  assert (Hn : bool_decide (strip (Usuario.nombre u) = [])
               || (length (strip (Usuario.nombre u)) <? 2)%nat
               = bool_decide (Usuario.nombre u = [])
                 || (length (strip (Usuario.nombre u)) <? 2)%nat).
  { destruct (strip (Usuario.nombre u)) as [|c r] eqn:Hs.
    - cbn. rewrite orb_true_r. reflexivity.
    - rewrite (bool_decide_eq_false_2 (c :: r = [])) by discriminate.
      rewrite (bool_decide_eq_false_2 (Usuario.nombre u = [])); [reflexivity|].
      intros Hnil. rewrite Hnil in Hs. discriminate. }
  rewrite Hn.
  rewrite (bool_decide_ext _ _ (arroba_strip (Usuario.correo u))).
  reflexivity.
Qed.

(** ** More on the workflow *)

(** X3. When the card generator raises on a validated member, the run
    ends with that exception: the repository, the notifier and the
    printer are not called and the store is as it was. *)
Theorem render_failure_aborts {E} (rp : IRepository E) (n : INotifier E)
    (cg : ICardGenerator E) (p : IPrinter E) (u : Usuario) (w : World E)
    (fee : float) (e : exn) (o1 : Outside E) :
  pasa_validacion u ->
  feeFor (Usuario.tipo u) u (outside w) = (Ret fee, outside w) ->
  generar cg u fee (outside w) = (Raise e, o1) ->
  GestorCarne.emitir_carne (GestorCarne.mk UsuarioValidator.new rp n cg p) u w
  = (Raise e, mkWorld o1 (store w)).
Proof.
  intros Hv Hfee Hg.
  destruct (feeFor_valid u _ _ _ Hfee) as (cls & Hcls & ->).
  exact (emitir_carne_render_raises rp n cg p u w cls e o1 Hv Hcls Hg).
Qed.

Lemma render_failure_aborts_witness :
  GestorCarne.emitir_carne
    (GestorCarne.mk UsuarioValidator.new failing_repo failing_notifier
       SimpleCardGenerator.new failing_printer) sustituta mundo_vacio
  = (Raise (UnicodeEncodeError
              (SimpleCardGenerator.contenido sustituta 5%float) 34 35),
     mkWorld (outside mundo_vacio) (store mundo_vacio)).
Proof.
  exact (render_failure_aborts failing_repo failing_notifier
           SimpleCardGenerator.new failing_printer sustituta mundo_vacio
           5%float _ _ eq_refl eq_refl eq_refl).
Defined.

(** X5. The fee factory is a check of its own: when a validator lets a
    member through whose category is not in the table, the run ends with
    the factory's ValueError, which names the category, and the card
    generator, repository, notifier and printer are not called. *)
Theorem unknown_category_aborts {E} (v : IUserValidator E) (rp : IRepository E)
    (n : INotifier E) (cg : ICardGenerator E) (p : IPrinter E) (u : Usuario)
    (w : World E) (o0 : Outside E) :
  validar v u (outside w) = (Ret tt, o0) ->
  Usuario.tipo u ∉ categorias ->
  GestorCarne.emitir_carne (GestorCarne.mk v rp n cg p) u w
  = (Raise (ValueError (lit "No hay estrategia de costo para tipo: "
                          ++ Usuario.tipo u)),
     mkWorld o0 (store w)).
Proof.
  intros Hv Ht.
  unfold GestorCarne.emitir_carne.
  cbn [GestorCarne.validator].
  erewrite bind_Ret; cycle 1.
  { rewrite lift_run, Hv. reflexivity. }
  cbn [fst snd].
  erewrite bind_Raise; [reflexivity|].
  unfold CostoFactory.get_costo_strategy.
  rewrite (mapping_lookup_None _ Ht). reflexivity.
Qed.

Lemma unknown_category_aborts_witness :
  GestorCarne.emitir_carne
    (GestorCarne.mk permissive_validator InMemoryRepository.new
       (EmailNotifier.new (lit "smtp.miuniversidad.edu") 587)
       SimpleCardGenerator.new ConsolePrinter.new) visitante mundo_vacio
  = (Raise (ValueError (lit "No hay estrategia de costo para tipo: visitante")),
     mundo_vacio).
Proof.
  refine (unknown_category_aborts permissive_validator InMemoryRepository.new
           (EmailNotifier.new (lit "smtp.miuniversidad.edu") 587)
           SimpleCardGenerator.new ConsolePrinter.new visitante mundo_vacio
           (outside mundo_vacio) eq_refl _).
  unfold categorias. rewrite !elem_of_cons, elem_of_nil.
  intros [H|[H|[H|[H|[H|[]]]]]]; vm_compute in H; discriminate H.
Defined.


(** ** Lines of a card *)

Lemma saltos_app (s t : str) : saltos (s ++ t) = (saltos s + saltos t)%nat.
Proof. apply count_occ_app. Qed.

Lemma saltos_digits (s : str) :
  Forall (fun c => is_digit c = true) s -> saltos s = O.
Proof.
  induction 1 as [|c r Hc _ IH]; [reflexivity|].
  unfold saltos in *. cbn [count_occ].
  destruct (N.eq_dec c 10) as [->|_]; [discriminate Hc | exact IH].
Qed.

Lemma saltos_fixed2 (neg : bool) (q : N) : saltos (fixed2 neg q) = O.
Proof.
  unfold fixed2. rewrite !saltos_app.
  rewrite (saltos_digits _ (str_of_N_digits _)).
  rewrite (saltos_digits _ (zfill_digits _ _ (str_of_N_digits _))).
  destruct neg; reflexivity.
Qed.

Lemma saltos_format_2f (x : float) : saltos (format_2f x) = O.
Proof.
  unfold format_2f. destruct (Prim2SF x) as [neg|neg| |neg m e].
  - apply saltos_fixed2.
  - destruct neg; reflexivity.
  - reflexivity.
  - apply saltos_fixed2.
Qed.

Lemma saltos_isoformat (d : date) : saltos (isoformat d) = O.
Proof.
  unfold isoformat. rewrite !saltos_app.
  rewrite !(saltos_digits _ (zfill_digits _ _ (str_of_N_digits _))).
  reflexivity.
Qed.

Lemma saltos_zero (s : str) : saltos s = O <-> 10 ∉ s.
Proof.
  unfold saltos. rewrite list_elem_of_In. split.
  - intros H. apply count_occ_not_In in H. exact H.
  - intros H. apply count_occ_not_In. exact H.
Qed.

(** X12. The generator copies the name, id and category as they are: the
    card has six newlines plus those of the three fields, so it has its
    six lines exactly when none of the three holds a newline. *)
Theorem card_line_count (u : Usuario) (fee : float) :
  saltos (SimpleCardGenerator.contenido u fee)
  = (6 + saltos (Usuario.nombre u) + saltos (Usuario.id u)
     + saltos (Usuario.tipo u))%nat
  /\ (saltos (SimpleCardGenerator.contenido u fee) = 6%nat
      <-> (10 ∉ Usuario.nombre u) /\ (10 ∉ Usuario.id u)
          /\ (10 ∉ Usuario.tipo u)).
Proof.
  assert (H : saltos (SimpleCardGenerator.contenido u fee)
              = (6 + saltos (Usuario.nombre u) + saltos (Usuario.id u)
                 + saltos (Usuario.tipo u))%nat).
  { unfold SimpleCardGenerator.contenido. rewrite !saltos_app.
    rewrite saltos_format_2f, saltos_isoformat.
    change (saltos nl) with 1%nat.
    change (saltos (lit "CARNE BIBLIOTECA UNSCH")) with O.
    change (saltos (lit "Nombre: ")) with O.
    change (saltos (lit "ID: ")) with O.
    change (saltos (lit "Tipo: ")) with O.
    change (saltos (lit "Costo: S/ ")) with O.
    change (saltos (lit "Fecha: ")) with O.
    lia. }
  split; [exact H|]. rewrite H, <- !saltos_zero. lia.
Qed.

(** ** The fee table *)

(** X13. A fee that the factory returns is one of the five constants of
    the table, so it is finite, and it is the same for every member of
    that category: the member passed to [calcular] is not looked at. *)
Theorem fee_is_a_table_constant {S} (t : str) (u u' : Usuario) (s s' : S)
    (fee : float) :
  feeFor t u s = (Ret fee, s') ->
  t ∈ categorias
  /\ fee ∈ [10%float; 12%float; 5%float; 6%float; 20%float]
  /\ is_finite fee = true
  /\ feeFor t u' s = (Ret fee, s).
Proof.
  unfold feeFor, CostoFactory.get_costo_strategy, bind.
  destruct (decide (t ∈ categorias)) as [Hin|Hout].
  - unfold categorias in Hin.
    rewrite !elem_of_cons, elem_of_nil in Hin.
    destruct Hin as [->|[->|[->|[->|[->|[]]]]]];
      intros H; vm_compute in H; injection H as <- _;
      (split; [unfold categorias; rewrite !elem_of_cons; auto 10|]);
      (split; [rewrite !elem_of_cons; auto 10|]);
      split; reflexivity.
  - rewrite (mapping_lookup_None t Hout). discriminate.
Qed.

Lemma fee_is_a_table_constant_witness :
  lit "docente" ∈ categorias
  /\ 5%float ∈ [10%float; 12%float; 5%float; 6%float; 20%float]
  /\ is_finite 5%float = true
  /\ feeFor (lit "docente") ana tt = (Ret 5%float, tt).
Proof.
  exact (fee_is_a_table_constant (lit "docente") equis ana tt tt 5%float eq_refl).
Defined.

(** ** The validator as a parameter *)


(** X15. Whatever the validator is, when it raises the run ends with its
    exception and with the state the validator left: no fee is looked up,
    and the card generator, repository, notifier and printer are not
    called. *)
Theorem validator_failure_aborts {E} (v : IUserValidator E) (rp : IRepository E)
    (n : INotifier E) (cg : ICardGenerator E) (p : IPrinter E) (u : Usuario)
    (w : World E) (e : exn) (o : Outside E) :
  validar v u (outside w) = (Raise e, o) ->
  GestorCarne.emitir_carne (GestorCarne.mk v rp n cg p) u w
  = (Raise e, mkWorld o (store w)).
Proof.
  intros H. unfold GestorCarne.emitir_carne. cbn [GestorCarne.validator].
  erewrite bind_Raise; [reflexivity|]. rewrite lift_run, H. reflexivity.
Qed.

Lemma validator_failure_aborts_witness :
  GestorCarne.emitir_carne
    (GestorCarne.mk rejecting_validator InMemoryRepository.new
       (EmailNotifier.new (lit "smtp.miuniversidad.edu") 587)
       SimpleCardGenerator.new ConsolePrinter.new) ana mundo_vacio
  = (Raise (Exception (lit "registration closed")),
     mkWorld (outside mundo_vacio) (store mundo_vacio)).
Proof.
  exact (validator_failure_aborts rejecting_validator InMemoryRepository.new
           (EmailNotifier.new (lit "smtp.miuniversidad.edu") 587)
           SimpleCardGenerator.new ConsolePrinter.new ana mundo_vacio _ _ eq_refl).
Defined.

(** ** Writing to standard output *)

Lemma encodable_app_iff (s t : str) :
  encodable (s ++ t) <-> encodable s /\ encodable t.
Proof. unfold encodable. apply Forall_app. Qed.

Lemma encodable_None (s : str) : ~ encodable s <-> utf8_encode_all s = None.
Proof.
  rewrite utf8_encode_all_encodable.
  destruct (utf8_encode_all s) as [b|]; split; intros H; try discriminate.
  - exfalso. apply H. now exists b.
  - reflexivity.
  - intros [b Hb]. discriminate.
Qed.

Lemma print_encodable {E} (s : str) (o : Outside E) :
  encodable s -> print s o = (Ret tt, mkOutside (stdout o ++ [s]) (env o)).
Proof.
  intros [b Hb]%utf8_encode_all_encodable.
  unfold print, bind, str_encode. rewrite Hb. reflexivity.
Qed.

Lemma print_unencodable {E} (s : str) (o : Outside E) :
  ~ encodable s ->
  print s o
  = (Raise (UnicodeEncodeError s (first_unencodable s)
              (first_unencodable s
               + unencodable_run (drop (first_unencodable s) s))), o).
Proof.
  intros H%encodable_None. unfold print, bind, str_encode. rewrite H.
  reflexivity.
Qed.

(** Strictly decoded text holds scalar values only. *)
Lemma utf8_decode_scalar_len (k : nat) (bs : bytes) (t : str) :
  (length bs <= k)%nat -> utf8_decode bs = Some t -> encodable t.
Proof.
  revert bs t. induction k as [|k IH]; intros bs t Hlen.
  { destruct bs; [|cbn in Hlen; lia]. intros [= <-]. constructor. }
  destruct bs as [|b0 r0]; [intros [= <-]; constructor|].
  cbn [utf8_decode]. cbv zeta. cbn [length] in Hlen.
  assert (Hstep : forall (c : N) (r : bytes) (t : str),
             (length r <= k)%nat -> is_scalar c = true ->
             (fun t' => c :: t') <$> utf8_decode r = Some t -> encodable t).
  { intros c r t' Hr Hc Ht.
    destruct (utf8_decode r) as [t0|] eqn:Hr0; [|discriminate].
    injection Ht as <-. constructor; [exact Hc|]. exact (IH r t0 Hr Hr0). }
  destruct (N.ltb_spec (Byte.to_N b0) 0x80) as [H0|H0].
  { apply Hstep; [lia|]. apply is_scalar_spec. lia. }
  destruct r0 as [|b1 r1]; [discriminate|]. cbn [length] in Hlen.
  destruct ((0xC2 <=? Byte.to_N b0) && (Byte.to_N b0 <=? 0xDF)) eqn:H2.
  { apply andb_true_iff in H2 as [Ha Hb]. apply N.leb_le in Ha, Hb.
    unfold is_cont.
    destruct ((0x80 <=? Byte.to_N b1) && (Byte.to_N b1 <=? 0xBF)) eqn:Hc1;
      [|discriminate].
    apply andb_true_iff in Hc1 as [Hc Hd]. apply N.leb_le in Hc, Hd.
    apply Hstep; [lia|]. apply is_scalar_spec. lia. }
  destruct r1 as [|b2 r2]; [discriminate|]. cbn [length] in Hlen.
  destruct ((0xE0 <=? Byte.to_N b0) && (Byte.to_N b0 <=? 0xEF)) eqn:H3.
  { apply andb_true_iff in H3 as [Ha Hb]. apply N.leb_le in Ha, Hb.
    destruct (second_of_3 (Byte.to_N b0) (Byte.to_N b1) && is_cont (Byte.to_N b2))
      eqn:Hc; [|discriminate].
    apply andb_true_iff in Hc as [Hs Hc2].
    unfold is_cont in Hc2. apply andb_true_iff in Hc2 as [Hc Hd].
    apply N.leb_le in Hc, Hd.
    apply Hstep; [lia|]. apply is_scalar_spec.
    unfold second_of_3, is_cont in Hs.
    destruct (N.eqb_spec (Byte.to_N b0) 0xE0);
      [|destruct (N.eqb_spec (Byte.to_N b0) 0xED)];
      apply andb_true_iff in Hs as [Hs1 Hs2]; apply N.leb_le in Hs1, Hs2; lia. }
  destruct r2 as [|b3 r3]; [discriminate|]. cbn [length] in Hlen.
  destruct ((0xF0 <=? Byte.to_N b0) && (Byte.to_N b0 <=? 0xF4)) eqn:H4;
    [|discriminate].
  apply andb_true_iff in H4 as [Ha Hb]. apply N.leb_le in Ha, Hb.
  destruct (second_of_4 (Byte.to_N b0) (Byte.to_N b1) && is_cont (Byte.to_N b2)
            && is_cont (Byte.to_N b3)) eqn:Hc; [|discriminate].
  apply andb_true_iff in Hc as [Hc Hc3]. apply andb_true_iff in Hc as [Hs Hc2].
  unfold is_cont in Hc2, Hc3.
  apply andb_true_iff in Hc2 as [Hc Hd]. apply N.leb_le in Hc, Hd.
  apply andb_true_iff in Hc3 as [He Hf]. apply N.leb_le in He, Hf.
  apply Hstep; [lia|]. apply is_scalar_spec.
  unfold second_of_4, is_cont in Hs.
  destruct (N.eqb_spec (Byte.to_N b0) 0xF0);
    [|destruct (N.eqb_spec (Byte.to_N b0) 0xF4)];
    apply andb_true_iff in Hs as [Hs1 Hs2]; apply N.leb_le in Hs1, Hs2; lia.
Qed.

Lemma utf8_decode_scalar (bs : bytes) (t : str) :
  utf8_decode bs = Some t -> encodable t.
Proof. apply (utf8_decode_scalar_len (length bs)). lia. Qed.

(** ** Running the workflow to its end *)

Lemma lift_try_except {E A} (m : prog (Outside E) A) (h : exn -> prog (Outside E) A)
    (w : World E) :
  try_except (lift m) (fun e => lift (h e)) w = lift (try_except m h) w.
Proof.
  unfold try_except, lift. destruct (m (outside w)) as [[a|e] o]; cbn;
    [reflexivity|]. destruct (is_Exception e); reflexivity.
Qed.

(** A best-effort step whose failure can be logged returns, with the
    error line printed when the step raised. *)
Lemma step_logged {E} (m : prog (Outside E) unit) (prefix : str) (o : Outside E) :
  encodable prefix ->
  printable_failure (fst (m o)) ->
  try_except m (fun e => print (prefix ++ exn_str e)) o
  = (Ret tt, logged prefix (m o)).
Proof.
  intros Hpre H. unfold try_except, logged.
  destruct (m o) as [[[]|e] o']; cbn [fst] in H; [reflexivity|].
  destruct H as [-> He]. apply print_encodable, encodable_app; assumption.
Qed.

Lemma notify_prefix_encodable : encodable notify_prefix.
Proof. apply encodable_forallb. reflexivity. Qed.

Lemma print_prefix_encodable : encodable print_prefix.
Proof. apply encodable_forallb. reflexivity. Qed.

Lemma saved_message_encodable (u : Usuario) (k : nat) :
  encodable (saved_message u k) <-> encodable (Usuario.id u).
Proof.
  unfold saved_message. rewrite !encodable_app_iff. split; [tauto|].
  intros H. repeat split;
    first [ exact H | apply encodable_str_of_N
          | apply encodable_forallb; reflexivity ].
Qed.

Lemma notify_step_logged {E} (n : INotifier E) (u : Usuario) (fee : float)
    (carne_bin : bytes) (o : Outside E) :
  printable_failure
    (fst (enviar n (Usuario.correo u) GestorCarne.asunto (GestorCarne.cuerpo u fee)
            (Some carne_bin) o)) ->
  notify_step n u fee carne_bin o
  = (Ret tt,
     logged notify_prefix
       (enviar n (Usuario.correo u) GestorCarne.asunto (GestorCarne.cuerpo u fee)
          (Some carne_bin) o)).
Proof. exact (step_logged _ notify_prefix o notify_prefix_encodable). Qed.

Lemma print_step_logged {E} (p : IPrinter E) (carne_bin : bytes) (o : Outside E) :
  printable_failure (fst (imprimir p carne_bin o)) ->
  print_step p carne_bin o = (Ret tt, logged print_prefix (imprimir p carne_bin o)).
Proof. exact (step_logged _ print_prefix o print_prefix_encodable). Qed.

(** The in-memory repository appends first and prints after. *)
Lemma guardar_usuario_store {E} (u : Usuario) (fee : float) (b : bytes)
    (w : World E) :
  store (snd (InMemoryRepository.guardar_usuario u fee b w))
  = store w ++ [Registro.mk u fee b].
Proof.
  unfold InMemoryRepository.guardar_usuario, bind, lift.
  cbn [outside store].
  destruct (print _ _) as [[[]|e] o]; reflexivity.
Qed.

Lemma guardar_usuario_run {E} (u : Usuario) (fee : float) (b : bytes) (w : World E) :
  encodable (Usuario.id u) ->
  InMemoryRepository.guardar_usuario u fee b w
  = (Ret tt,
     mkWorld
       (mkOutside (stdout (outside w) ++ [saved_message u (S (length (store w)))])
          (env (outside w)))
       (store w ++ [Registro.mk u fee b])).
Proof.
  intros Hid.
  unfold InMemoryRepository.guardar_usuario, bind at 1 2, lift.
  cbn [outside store]. rewrite length_app. cbn [length]. rewrite Nat.add_1_r.
  fold (saved_message u (S (length (store w)))).
  rewrite print_encodable by (apply saved_message_encodable; exact Hid).
  reflexivity.
Qed.

Lemma guardar_usuario_raises {E} (u : Usuario) (fee : float) (b : bytes)
    (w : World E) :
  ~ encodable (Usuario.id u) ->
  exists e,
    InMemoryRepository.guardar_usuario u fee b w
    = (Raise e, mkWorld (outside w) (store w ++ [Registro.mk u fee b])).
Proof.
  intros Hid.
  unfold InMemoryRepository.guardar_usuario, bind at 1 2, lift.
  cbn [outside store]. rewrite length_app. cbn [length]. rewrite Nat.add_1_r.
  fold (saved_message u (S (length (store w)))).
  rewrite print_unencodable by (rewrite saved_message_encodable; exact Hid).
  eexists. reflexivity.
Qed.

(** The run from the repository call on, for any validator and repository
    once the member is validated and the card rendered. *)
Lemma emitir_carne_steps {E} (v : IUserValidator E) (rp : IRepository E)
    (n : INotifier E) (cg : ICardGenerator E) (p : IPrinter E) (u : Usuario)
    (w : World E) (o0 o1 : Outside E) (cls : ICostoCarne) (carne_bin : bytes) :
  validar v u (outside w) = (Ret tt, o0) ->
  CostoFactory._mapping !! Usuario.tipo u = Some cls ->
  generar cg u (calcular cls u) o0 = (Ret carne_bin, o1) ->
  GestorCarne.emitir_carne (GestorCarne.mk v rp n cg p) u w
  = match guardar_usuario rp u (calcular cls u) carne_bin (mkWorld o1 (store w)) with
    | (Raise e, w2) => (Raise e, w2)
    | (Ret _, w2) =>
        match notify_step n u (calcular cls u) carne_bin (outside w2) with
        | (Raise e, o3) => (Raise e, mkWorld o3 (store w2))
        | (Ret _, o3) =>
            match print_step p carne_bin o3 with
            | (Raise e, o4) => (Raise e, mkWorld o4 (store w2))
            | (Ret _, o4) =>
                (Ret (Resultado.mk (Usuario.id u) (calcular cls u)),
                 mkWorld o4 (store w2))
            end
        end
    end.
Proof.
  intros Hv Hcls Hg.
  unfold GestorCarne.emitir_carne.
  cbn [GestorCarne.validator GestorCarne.repo GestorCarne.notifier
       GestorCarne.card_generator GestorCarne.printer].
  erewrite bind_Ret; cycle 1.
  { rewrite lift_run, Hv. reflexivity. }
  erewrite bind_Ret; cycle 1.
  { unfold CostoFactory.get_costo_strategy. rewrite Hcls. reflexivity. }
  cbv zeta. cbn [fst snd].
  erewrite bind_Ret; cycle 1.
  { rewrite lift_run. cbn [outside]. rewrite Hg. reflexivity. }
  cbn [fst snd store].
  destruct (guardar_usuario rp u (calcular cls u) carne_bin (mkWorld o1 (store w)))
    as [[[]|e] w2] eqn:Hrp.
  2: { erewrite bind_Raise; [reflexivity | exact Hrp]. }
  erewrite bind_Ret; [|exact Hrp].
  assert (Hn : try_except
                 (lift (enviar n (Usuario.correo u) GestorCarne.asunto
                          (GestorCarne.cuerpo u (calcular cls u)) (Some carne_bin)))
                 (fun e => lift (print (lit "[GestorCarne] Error enviando notificación: "
                                          ++ exn_str e))) w2
               = lift (notify_step n u (calcular cls u) carne_bin) w2).
  { apply lift_try_except. }
  assert (Hp : forall w3,
             try_except (lift (imprimir p carne_bin))
               (fun e => lift (print (lit "[GestorCarne] Error imprimiendo carné: "
                                        ++ exn_str e))) w3
             = lift (print_step p carne_bin) w3).
  { intros w3. apply lift_try_except. }
  destruct (notify_step n u (calcular cls u) carne_bin (outside w2))
    as [[[]|e] o3] eqn:Hns.
  2: { erewrite bind_Raise; [reflexivity|]. rewrite Hn, lift_run, Hns. reflexivity. }
  erewrite bind_Ret; cycle 1.
  { rewrite Hn, lift_run, Hns. reflexivity. }
  cbn [fst snd].
  destruct (print_step p carne_bin o3) as [[[]|e] o4] eqn:Hps.
  2: { erewrite bind_Raise; [reflexivity|]. rewrite Hp, lift_run.
       cbn [outside store]. rewrite Hps. reflexivity. }
  erewrite bind_Ret; cycle 1.
  { rewrite Hp, lift_run. cbn [outside store]. rewrite Hps. reflexivity. }
  reflexivity.
Qed.

(** The run of a valid member with the in-memory repository, when the
    card is rendered, the id can be printed and the failures of the
    notifier and the printer, if any, can be logged. *)
Lemma emitir_carne_run {E} (n : INotifier E) (cg : ICardGenerator E)
    (p : IPrinter E) (u : Usuario) (w : World E) (cls : ICostoCarne)
    (carne_bin : bytes) (o1 : Outside E) :
  pasa_validacion u ->
  CostoFactory._mapping !! Usuario.tipo u = Some cls ->
  generar cg u (calcular cls u) (outside w) = (Ret carne_bin, o1) ->
  encodable (Usuario.id u) ->
  let saved :=
    mkOutside (stdout o1 ++ [saved_message u (S (length (store w)))]) (env o1) in
  let r_n := enviar n (Usuario.correo u) GestorCarne.asunto
               (GestorCarne.cuerpo u (calcular cls u)) (Some carne_bin) saved in
  printable_failure (fst r_n) ->
  let r_p := imprimir p carne_bin (logged notify_prefix r_n) in
  printable_failure (fst r_p) ->
  GestorCarne.emitir_carne
    (GestorCarne.mk UsuarioValidator.new InMemoryRepository.new n cg p) u w
  = (Ret (Resultado.mk (Usuario.id u) (calcular cls u)),
     mkWorld (logged print_prefix r_p)
       (store w ++ [Registro.mk u (calcular cls u) carne_bin])).
Proof.
  intros Hv Hcls Hg Hid saved r_n Hn r_p Hp.
  rewrite (emitir_carne_steps UsuarioValidator.new InMemoryRepository.new n cg p
             u w (outside w) o1 cls carne_bin
             (pasa_validacion_run u (outside w) Hv) Hcls Hg).
  cbn [guardar_usuario InMemoryRepository.new].
  rewrite (guardar_usuario_run u _ carne_bin _ Hid).
  cbn [outside store stdout env]. fold saved.
  rewrite (notify_step_logged n u _ carne_bin saved Hn). fold r_n.
  rewrite (print_step_logged p carne_bin _ Hp).
  reflexivity.
Qed.

(** C2, as the program has it.  For a valid member whose card is rendered
    and whose id can be printed, the run returns {usuario_id, costo} and
    stores (member, fee, card) whenever the notifier and the printer each
    return or raise an [Exception] whose text standard output can take:
    the result and the record do not depend on what the two did.  A
    notifier failure is printed and the printer is then called on the
    state so reached; a printer failure is printed too. *)
Theorem notify_and_print_failures_are_not_fatal {E} (n : INotifier E)
    (p : IPrinter E) (cg : ICardGenerator E) (u : Usuario) (w : World E)
    (fee : float) (carne_bin : bytes) (o1 : Outside E) :
  pasa_validacion u ->
  feeFor (Usuario.tipo u) u (outside w) = (Ret fee, outside w) ->
  generar cg u fee (outside w) = (Ret carne_bin, o1) ->
  encodable (Usuario.id u) ->
  let saved :=
    mkOutside (stdout o1 ++ [saved_message u (S (length (store w)))]) (env o1) in
  let r_n := enviar n (Usuario.correo u) GestorCarne.asunto
               (GestorCarne.cuerpo u fee) (Some carne_bin) saved in
  printable_failure (fst r_n) ->
  let r_p := imprimir p carne_bin (logged notify_prefix r_n) in
  printable_failure (fst r_p) ->
  GestorCarne.emitir_carne
    (GestorCarne.mk UsuarioValidator.new InMemoryRepository.new n cg p) u w
  = (Ret (Resultado.mk (Usuario.id u) fee),
     mkWorld (logged print_prefix r_p)
       (store w ++ [Registro.mk u fee carne_bin])).
Proof.
  intros Hv Hfee Hg Hid saved r_n Hn r_p Hp.
  destruct (feeFor_valid u _ _ _ Hfee) as (cls & Hcls & ->).
  exact (emitir_carne_run n cg p u w cls carne_bin o1 Hv Hcls Hg Hid Hn Hp).
Qed.

(** A notifier and a printer that always fail: both failures are printed,
    the card is stored, the result is the usual one. *)
Lemma notify_and_print_failures_are_not_fatal_witness :
  GestorCarne.emitir_carne
    (GestorCarne.mk UsuarioValidator.new InMemoryRepository.new
       failing_notifier SimpleCardGenerator.new failing_printer)
    ana mundo_vacio
  = (Ret (Resultado.mk (Usuario.id ana) 10%float),
     mkWorld
       (mkOutside
          [saved_message ana 1;
           lit "[GestorCarne] Error enviando notificación: DeliveryError";
           lit "[GestorCarne] Error imprimiendo carné: PrintError"] tt)
       [Registro.mk ana 10%float
          (match utf8_encode_all (SimpleCardGenerator.contenido ana 10%float) with
           | Some b => b
           | None => []
           end)]).
Proof.
  exact (notify_and_print_failures_are_not_fatal
           failing_notifier failing_printer SimpleCardGenerator.new
           ana mundo_vacio 10%float
           (match utf8_encode_all (SimpleCardGenerator.contenido ana 10%float) with
            | Some b => b
            | None => []
            end)
           (outside mundo_vacio) eq_refl eq_refl eq_refl
           (encodable_forallb (Usuario.id ana) eq_refl)
           (conj eq_refl (encodable_forallb (lit "DeliveryError") eq_refl))
           (conj eq_refl (encodable_forallb (lit "PrintError") eq_refl))).
Defined.

(** C2 fails as stated.  A notifier whose error text holds a lone
    surrogate: the handler's own [print] raises, so the run ends with
    UnicodeEncodeError after the record is stored and the printer is never
    called.  A notifier that is interrupted: its exception is no
    [Exception] and passes through the handler. *)
Lemma notify_failure_counterexample :
  pasa_validacion ana
  /\ GestorCarne.emitir_carne
       (GestorCarne.mk UsuarioValidator.new InMemoryRepository.new
          surrogate_notifier SimpleCardGenerator.new ConsolePrinter.new)
       ana mundo_vacio
     = (Raise (UnicodeEncodeError (notify_prefix ++ lit "550 " ++ [0xDC80]) 47 48),
        mkWorld (mkOutside [saved_message ana 1] tt)
          [Registro.mk ana 10%float
             (match utf8_encode_all (SimpleCardGenerator.contenido ana 10%float) with
              | Some b => b
              | None => []
              end)])
  /\ GestorCarne.emitir_carne
       (GestorCarne.mk UsuarioValidator.new InMemoryRepository.new
          interrupted_notifier SimpleCardGenerator.new ConsolePrinter.new)
       ana mundo_vacio
     = (Raise (BaseException []),
        mkWorld (mkOutside [saved_message ana 1] tt)
          [Registro.mk ana 10%float
             (match utf8_encode_all (SimpleCardGenerator.contenido ana 10%float) with
              | Some b => b
              | None => []
              end)]).
Proof. split; [reflexivity|]. split; vm_compute; reflexivity. Qed.

(** C6, as the program has it.  For a valid member whose card is
    rendered, whose id can be printed, and whose notifier and printer each
    return or raise an [Exception] whose text can be printed,
    [emitir_carne] returns the member's id with the fee of its category
    (10.0 for estudiante_pre), and the in-memory repository holds one more
    record, (member, fee, card bytes), at the end of its list. *)
Theorem valid_member_is_issued_and_stored {E} (n : INotifier E)
    (p : IPrinter E) (cg : ICardGenerator E) (u : Usuario) (w : World E)
    (fee : float) (carne_bin : bytes) (o1 : Outside E) :
  pasa_validacion u ->
  feeFor (Usuario.tipo u) u (outside w) = (Ret fee, outside w) ->
  generar cg u fee (outside w) = (Ret carne_bin, o1) ->
  encodable (Usuario.id u) ->
  let saved :=
    mkOutside (stdout o1 ++ [saved_message u (S (length (store w)))]) (env o1) in
  let r_n := enviar n (Usuario.correo u) GestorCarne.asunto
               (GestorCarne.cuerpo u fee) (Some carne_bin) saved in
  printable_failure (fst r_n) ->
  printable_failure (fst (imprimir p carne_bin (logged notify_prefix r_n))) ->
  let run :=
    GestorCarne.emitir_carne
      (GestorCarne.mk UsuarioValidator.new InMemoryRepository.new n cg p) u w in
  fst run = Ret (Resultado.mk (Usuario.id u) fee)
  /\ store (snd run) = store w ++ [Registro.mk u fee carne_bin]
  /\ length (store (snd run)) = S (length (store w))
  /\ (Usuario.tipo u = lit "estudiante_pre" -> fee = 10%float).
Proof.
  intros Hv Hfee Hg Hid saved r_n Hn Hp run.
  destruct (feeFor_valid u _ _ _ Hfee) as (cls & Hcls & ->).
  unfold run.
  rewrite (emitir_carne_run n cg p u w cls carne_bin o1 Hv Hcls Hg Hid Hn Hp).
  cbn [fst snd store]. repeat split.
  - rewrite length_app. cbn. lia.
  - intros Ht. rewrite Ht in Hcls. vm_compute in Hcls.
    injection Hcls as <-. reflexivity.
Qed.

Lemma valid_member_is_issued_and_stored_witness :
  fst (GestorCarne.emitir_carne demo_gestor ana mundo_vacio)
  = Ret (Resultado.mk (Usuario.id ana) 10%float)
  /\ length (store (snd (GestorCarne.emitir_carne demo_gestor ana mundo_vacio)))
     = 1%nat.
Proof.
  pose proof (valid_member_is_issued_and_stored
                (EmailNotifier.new (lit "smtp.miuniversidad.edu") 587)
                ConsolePrinter.new SimpleCardGenerator.new
                ana mundo_vacio 10%float
                (match fst (SimpleCardGenerator.generar ana 10%float tt) with
                 | Ret b => b
                 | Raise _ => []
                 end)
                (outside mundo_vacio)
                eq_refl eq_refl eq_refl
                (encodable_forallb (Usuario.id ana) eq_refl) I I) as H.
  cbv zeta in H. destruct H as (H1 & _ & H2 & _).
  split; [exact H1 | exact H2].
Defined.

(** C6 fails as stated on three valid members: one whose name cannot be
    encoded, where the card generator raises and nothing is stored; one
    whose notifier fails with a text that cannot be printed, where the run
    raises with the record stored; one whose id cannot be printed, where
    the repository raises once the record is stored. *)
Lemma valid_member_counterexample :
  pasa_validacion sustituta
  /\ GestorCarne.emitir_carne demo_gestor sustituta mundo_vacio
     = (Raise (UnicodeEncodeError
                 (SimpleCardGenerator.contenido sustituta 5%float) 34 35),
        mundo_vacio)
  /\ fst (GestorCarne.emitir_carne
            (GestorCarne.mk UsuarioValidator.new InMemoryRepository.new
               surrogate_notifier SimpleCardGenerator.new ConsolePrinter.new)
            ana mundo_vacio)
     = Raise (UnicodeEncodeError (notify_prefix ++ lit "550 " ++ [0xDC80]) 47 48)
  /\ pasa_validacion sin_id
  /\ GestorCarne.emitir_carne
       (GestorCarne.mk UsuarioValidator.new InMemoryRepository.new
          (EmailNotifier.new (lit "smtp.miuniversidad.edu") 587)
          blank_generator ConsolePrinter.new)
       sin_id mundo_vacio
     = (Raise (UnicodeEncodeError (saved_message sin_id 1) 29 30),
        mkWorld (mkOutside [] tt) [Registro.mk sin_id 10%float []]).
Proof.
  split; [reflexivity|]. split; [vm_compute; reflexivity|].
  split; [vm_compute; reflexivity|]. split; [reflexivity|].
  vm_compute; reflexivity.
Qed.

Lemma imprimir_run {E} (carcarn : bytes) (o : Outside E) :
  ConsolePrinter.imprimir carcarn o
  = (Ret tt,
     mkOutside
       (stdout o
        ++ [lit "[ConsolePrinter] Imprimiendo carné:" ++ nl;
            match utf8_decode carcarn with
            | Some texto => texto
            | None =>
                lit "[ConsolePrinter] (binario) "
                  ++ str_of_N (N.of_nat (length carcarn)) ++ lit " bytes"
            end])
       (env o)).
Proof.
  unfold ConsolePrinter.imprimir. cbv zeta.
  erewrite bind_Ret; cycle 1.
  { apply print_encodable, encodable_forallb. reflexivity. }
  destruct (utf8_decode carcarn) as [texto|] eqn:Hd.
  - unfold try_except.
    rewrite (print_encodable texto _ (utf8_decode_scalar _ _ Hd)).
    cbn [stdout env]. rewrite <- app_assoc. reflexivity.
  - rewrite print_encodable.
    + cbn [stdout env]. rewrite <- app_assoc. reflexivity.
    + encodable_parts encodable_leaf.
Qed.

(** C10. The console printer returns normally on every byte string; on
    bytes that are not UTF-8 it prints their length instead of the text;
    so a handler around it never runs. *)
Theorem console_printer_never_raises {E} (carcarn : bytes) (o : Outside E) :
  fst (ConsolePrinter.imprimir carcarn o) = Ret tt
  /\ env (snd (ConsolePrinter.imprimir carcarn o)) = env o
  /\ (utf8_decode carcarn = None ->
      stdout (snd (ConsolePrinter.imprimir carcarn o))
      = stdout o
        ++ [lit "[ConsolePrinter] Imprimiendo carné:" ++ nl;
            lit "[ConsolePrinter] (binario) "
              ++ str_of_N (N.of_nat (length carcarn)) ++ lit " bytes"])
  /\ (forall texto, utf8_decode carcarn = Some texto ->
      stdout (snd (ConsolePrinter.imprimir carcarn o))
      = stdout o ++ [lit "[ConsolePrinter] Imprimiendo carné:" ++ nl; texto])
  /\ (forall h, try_except (ConsolePrinter.imprimir carcarn) h o
                = ConsolePrinter.imprimir carcarn o)
  /\ print_step ConsolePrinter.new carcarn o = ConsolePrinter.imprimir carcarn o.
Proof.
  assert (Hh : forall h, try_except (ConsolePrinter.imprimir carcarn) h o
                         = ConsolePrinter.imprimir carcarn o).
  { intros h. unfold try_except. rewrite imprimir_run. reflexivity. }
  repeat split.
  - rewrite imprimir_run. reflexivity.
  - rewrite imprimir_run. reflexivity.
  - intros H. rewrite imprimir_run, H. reflexivity.
  - intros texto H. rewrite imprimir_run, H. reflexivity.
  - exact Hh.
  - apply Hh.
Qed.

(** Bytes that are not UTF-8 do reach the fallback. *)
Example console_printer_on_binary :
  ConsolePrinter.imprimir [xff; xfe; x00] (mkOutside [] tt)
  = (Ret tt,
     mkOutside [lit "[ConsolePrinter] Imprimiendo carné:" ++ nl;
                lit "[ConsolePrinter] (binario) 3 bytes"] tt).
Proof. reflexivity. Qed.

(** ** The lines of a text *)

Lemma split_nl_line (l t : str) :
  10 ∉ l -> split_nl (l ++ nl ++ t) = (l :: fst (split_nl t), snd (split_nl t)).
Proof.
  induction l as [|c l IH]; intros Hl.
  - cbn [app nl split_nl]. destruct (split_nl t). reflexivity.
  - cbn [app split_nl]. rewrite IH by (intros H; apply Hl; now right).
    destruct (N.eqb_spec c 10) as [->|_]; [|reflexivity].
    exfalso. apply Hl. now left.
Qed.

Lemma split_nl_unlines (ls : list str) :
  Forall (fun l => 10 ∉ l) ls -> split_nl (unlines ls) = (ls, []).
Proof.
  induction 1 as [|l ls Hl _ IH]; [reflexivity|].
  unfold unlines in *. cbn [map concat]. rewrite <- app_assoc.
  rewrite (split_nl_line l _ Hl), IH. reflexivity.
Qed.

Lemma sin_salto_app (s t : str) : 10 ∉ s -> 10 ∉ t -> 10 ∉ s ++ t.
Proof. rewrite elem_of_app. tauto. Qed.

(** C9, as the program has it.  When the name, id and category can be
    encoded and hold no newline and the fee is finite, [generar] returns a
    document that decodes as UTF-8 to a text made of exactly six
    newline-terminated lines, in this order: the institution label, name,
    id, category, fee with two decimals after the currency sign, and the
    date as YYYY-MM-DD. *)
Theorem card_document_format (u : Usuario) (fee : float) :
  encodable (Usuario.nombre u) -> encodable (Usuario.id u) ->
  encodable (Usuario.tipo u) ->
  10 ∉ Usuario.nombre u -> 10 ∉ Usuario.id u -> 10 ∉ Usuario.tipo u ->
  is_finite fee = true ->
  date_in_range (Usuario.fecha_registro u) ->
  exists doc text,
    (forall S (s : S), SimpleCardGenerator.generar u fee s = (Ret doc, s))
    /\ utf8_decode doc = Some text
    /\ split_nl text
       = ([lit "CARNE BIBLIOTECA UNSCH";
           lit "Nombre: " ++ Usuario.nombre u;
           lit "ID: " ++ Usuario.id u;
           lit "Tipo: " ++ Usuario.tipo u;
           lit "Costo: S/ " ++ format_2f fee;
           lit "Fecha: " ++ isoformat (Usuario.fecha_registro u)], [])
    /\ two_decimals (format_2f fee)
    /\ iso_8601_date (isoformat (Usuario.fecha_registro u)).
Proof.
  intros Hn Hi Ht Nn Ni Nt Hf Hd.
  destruct (proj1 (utf8_encode_all_encodable _)
              (encodable_contenido u fee Hn Hi Ht)) as [doc Hdoc].
  exists doc, (SimpleCardGenerator.contenido u fee).
  split; [|split; [|split; [|split]]].
  - intros S s. unfold SimpleCardGenerator.generar, str_encode.
    rewrite Hdoc. reflexivity.
  - exact (utf8_decode_encode _ _ Hdoc).
  - rewrite contenido_lines. apply split_nl_unlines. unfold card_lines.
    repeat constructor;
      first [ apply sin_salto_app;
              [ apply saltos_zero; reflexivity
              | first [ assumption
                      | apply saltos_zero, saltos_format_2f
                      | apply saltos_zero, saltos_isoformat ] ]
            | apply saltos_zero; reflexivity ].
  - apply format_2f_shape, Hf.
  - apply isoformat_shape, Hd.
Qed.

Lemma card_document_format_witness :
  exists doc text,
    (forall S (s : S), SimpleCardGenerator.generar ana 10%float s = (Ret doc, s))
    /\ utf8_decode doc = Some text
    /\ split_nl text
       = ([lit "CARNE BIBLIOTECA UNSCH";
           lit "Nombre: " ++ Usuario.nombre ana;
           lit "ID: " ++ Usuario.id ana;
           lit "Tipo: " ++ Usuario.tipo ana;
           lit "Costo: S/ " ++ format_2f 10%float;
           lit "Fecha: " ++ isoformat (Usuario.fecha_registro ana)], [])
    /\ two_decimals (format_2f 10%float)
    /\ iso_8601_date (isoformat (Usuario.fecha_registro ana)).
Proof.
  apply (card_document_format ana 10%float).
  - apply encodable_forallb. reflexivity.
  - apply encodable_forallb. reflexivity.
  - apply encodable_forallb. reflexivity.
  - apply saltos_zero. reflexivity.
  - apply saltos_zero. reflexivity.
  - apply saltos_zero. reflexivity.
  - reflexivity.
  - vm_compute. repeat split; discriminate.
Defined.

(** C9 fails as stated on three inputs: a member whose name holds a lone
    surrogate passes validation and has no card document at all; a fee
    that is not a number is not printed with two decimals; and a member
    whose name holds a newline passes validation, can be encoded, and gets
    a card of seven lines whose third line is taken from the name. *)
Lemma card_document_counterexample :
  pasa_validacion sustituta
  /\ SimpleCardGenerator.generar sustituta 5%float tt
     = (Raise (UnicodeEncodeError
                 (SimpleCardGenerator.contenido sustituta 5%float) 34 35), tt)
  /\ format_2f nan = lit "nan"
  /\ (exists doc,
        SimpleCardGenerator.generar ana nan tt = (Ret doc, tt)
        /\ utf8_decode doc
           = Some (unlines
                     [lit "CARNE BIBLIOTECA UNSCH";
                      lit "Nombre: Ana Torres";
                      lit "ID: 1b4e28ba-2fa1-4d3b-a3f5-ef19b5a7633b";
                      lit "Tipo: estudiante_pre";
                      lit "Costo: S/ nan";
                      lit "Fecha: 2024-03-07"]))
  /\ pasa_validacion forja
  /\ (exists doc text,
        SimpleCardGenerator.generar forja 20%float tt = (Ret doc, tt)
        /\ utf8_decode doc = Some text
        /\ split_nl text
           = ([lit "CARNE BIBLIOTECA UNSCH";
               lit "Nombre: Eva";
               lit "ID: 0";
               lit "ID: 7c9e6679-7425-40de-944b-e07fc1f90ae7";
               lit "Tipo: externo";
               lit "Costo: S/ 20.00";
               lit "Fecha: 2024-03-07"], [])).
Proof.
  split; [reflexivity|]. split; [vm_compute; reflexivity|].
  split; [reflexivity|].
  split; [eexists; split; vm_compute; reflexivity|].
  split; [reflexivity|].
  eexists. eexists. split; [vm_compute; reflexivity|].
  split; vm_compute; reflexivity.
Qed.

(** ** More on the workflow: the later steps *)

(** X4. When the repository raises, the run ends with that exception in
    the state the repository left: neither the notifier nor the printer is
    called, and no result is returned. *)
Theorem persist_failure_aborts {E} (rp : IRepository E) (n : INotifier E)
    (cg : ICardGenerator E) (p : IPrinter E) (u : Usuario) (w w2 : World E)
    (fee : float) (carne_bin : bytes) (e : exn) (o1 : Outside E) :
  pasa_validacion u ->
  feeFor (Usuario.tipo u) u (outside w) = (Ret fee, outside w) ->
  generar cg u fee (outside w) = (Ret carne_bin, o1) ->
  guardar_usuario rp u fee carne_bin (mkWorld o1 (store w)) = (Raise e, w2) ->
  GestorCarne.emitir_carne (GestorCarne.mk UsuarioValidator.new rp n cg p) u w
  = (Raise e, w2).
Proof.
  intros Hv Hfee Hg Hrp.
  destruct (feeFor_valid u _ _ _ Hfee) as (cls & Hcls & ->).
  rewrite (emitir_carne_steps UsuarioValidator.new rp n cg p u w (outside w) o1
             cls carne_bin (pasa_validacion_run u (outside w) Hv) Hcls Hg).
  rewrite Hrp. reflexivity.
Qed.

Lemma persist_failure_aborts_witness :
  GestorCarne.emitir_carne
    (GestorCarne.mk UsuarioValidator.new failing_repo
       (EmailNotifier.new (lit "smtp.miuniversidad.edu") 587)
       SimpleCardGenerator.new ConsolePrinter.new) ana mundo_vacio
  = (Raise (Exception (lit "connection refused")), mundo_vacio).
Proof.
  exact (persist_failure_aborts failing_repo
           (EmailNotifier.new (lit "smtp.miuniversidad.edu") 587)
           SimpleCardGenerator.new ConsolePrinter.new ana mundo_vacio mundo_vacio
           10%float
           (match fst (SimpleCardGenerator.generar ana 10%float tt) with
            | Ret b => b
            | Raise _ => []
            end)
           _ (outside mundo_vacio) eq_refl eq_refl eq_refl eq_refl).
Defined.

(** X6. With the in-memory repository a run never removes or changes a
    record and appends at most one, the issued member's; a run that
    returns has appended exactly one, with the fee it returns.  (A run
    that raises may have stored the record already: the repository
    appends before it prints, and the notifier and printer come after.) *)
Theorem store_grows_by_at_most_one {E} (n : INotifier E) (cg : ICardGenerator E)
    (p : IPrinter E) (u : Usuario) (w : World E) :
  let run :=
    GestorCarne.emitir_carne
      (GestorCarne.mk UsuarioValidator.new InMemoryRepository.new n cg p) u w in
  (store (snd run) = store w
   \/ exists fee carne_bin,
        store (snd run) = store w ++ [Registro.mk u fee carne_bin])
  /\ (forall res,
        fst run = Ret res ->
        Resultado.usuario_id res = Usuario.id u
        /\ exists carne_bin,
             store (snd run)
             = store w ++ [Registro.mk u (Resultado.costo res) carne_bin]).
Proof.
  intros run. unfold run.
  destruct (validar_cases u (outside w))
    as [[_ H]|[(_ & _ & H)|[(_ & _ & _ & H)|[Hv _]]]].
  1-3: rewrite (emitir_carne_validator_raises
                  (GestorCarne.mk UsuarioValidator.new InMemoryRepository.new n cg p)
                  u w _ (outside w) H);
       (split; [left; reflexivity | intros res Hres; discriminate Hres]).
  apply pasa_validacion_iff in Hv.
  destruct (get_costo_strategy_valid u Hv) as (cls & Hcls & _).
  destruct (generar cg u (calcular cls u) (outside w)) as [[carne_bin|e] o1] eqn:Hg.
  2: { rewrite (emitir_carne_render_raises _ n cg p u w cls e o1 Hv Hcls Hg).
       split; [left; reflexivity | intros res Hres; discriminate Hres]. }
  rewrite (emitir_carne_steps UsuarioValidator.new InMemoryRepository.new n cg p
             u w (outside w) o1 cls carne_bin
             (pasa_validacion_run u (outside w) Hv) Hcls Hg).
  cbn [guardar_usuario InMemoryRepository.new].
  pose proof (guardar_usuario_store u (calcular cls u) carne_bin
                (mkWorld o1 (store w))) as Hst.
  cbn [store] in Hst.
  destruct (InMemoryRepository.guardar_usuario u (calcular cls u) carne_bin
              (mkWorld o1 (store w))) as [[[]|e] w2]; cbn [snd] in Hst.
  2: { cbn [fst snd]. split; [right; eauto | intros res Hres; discriminate Hres]. }
  destruct (notify_step n u (calcular cls u) carne_bin (outside w2))
    as [[[]|e] o3].
  2: { cbn [fst snd store]. split; [right; eauto | intros res Hres; discriminate Hres]. }
  destruct (print_step p carne_bin o3) as [[[]|e] o4]; cbn [fst snd store].
  2: { split; [right; eauto | intros res Hres; discriminate Hres]. }
  split; [right; eauto|].
  intros res [= <-]. cbn [Resultado.usuario_id Resultado.costo]. eauto.
Qed.

Lemma registro_eta (r : Registro) :
  Registro.mk (Registro.usuario r) (Registro.costo r) (Registro.carne r) = r.
Proof. destruct r. reflexivity. Qed.

Lemma guardar_todos_run {E} (rs : list Registro) (w : World E) :
  Forall (fun r => encodable (Usuario.id (Registro.usuario r))) rs ->
  guardar_todos rs w
  = (Ret tt,
     mkWorld
       (mkOutside (stdout (outside w) ++ mensajes_guardado (length (store w)) rs)
          (env (outside w)))
       (store w ++ rs)).
Proof.
  intros H. revert w. induction H as [|r rest Hr _ IH]; intros w.
  - cbn [guardar_todos mensajes_guardado]. rewrite !app_nil_r.
    destruct w as [[so e] st]. reflexivity.
  - cbn [guardar_todos mensajes_guardado].
    erewrite bind_Ret; [|apply guardar_usuario_run, Hr].
    rewrite IH. cbn [outside store stdout env].
    rewrite registro_eta, length_app, Nat.add_1_r. cbn [length].
    rewrite <- !app_assoc. reflexivity.
Qed.

(** X8. [guardar_usuario] appends the record before it prints, so the
    record is in the store whether the call returns or raises; it returns
    exactly when the member's id can be printed; and calls on members
    whose ids can be printed append the records after the existing ones in
    the order of the calls, each printing the running count. *)
Theorem guardar_usuario_appends_before_printing {E} (rs : list Registro)
    (u : Usuario) (fee : float) (b : bytes) (w : World E) :
  store (snd (InMemoryRepository.guardar_usuario u fee b w))
  = store w ++ [Registro.mk u fee b]
  /\ (fst (InMemoryRepository.guardar_usuario u fee b w) = Ret tt
      <-> encodable (Usuario.id u))
  /\ (Forall (fun r => encodable (Usuario.id (Registro.usuario r))) rs ->
      guardar_todos rs w
      = (Ret tt,
         mkWorld
           (mkOutside
              (stdout (outside w) ++ mensajes_guardado (length (store w)) rs)
              (env (outside w)))
           (store w ++ rs))).
Proof.
  split; [apply guardar_usuario_store|]. split; [|apply guardar_todos_run].
  split.
  - intros Hret.
    destruct (utf8_encode_all (Usuario.id u)) as [bs|] eqn:Hid.
    + apply utf8_encode_all_encodable. now exists bs.
    + apply encodable_None in Hid.
      destruct (guardar_usuario_raises u fee b w Hid) as [e He].
      rewrite He in Hret. discriminate.
  - intros Hid. rewrite (guardar_usuario_run u fee b w Hid). reflexivity.
Qed.



(** X10. What the card generator renders, the console printer shows as
    text: printing the bytes of a rendered card prints the header and then
    exactly the card's text, never the binary fallback. *)
Theorem printed_card_is_the_rendered_text {S E} (u : Usuario) (fee : float)
    (s : S) (doc : bytes) (o : Outside E) :
  SimpleCardGenerator.generar u fee s = (Ret doc, s) ->
  ConsolePrinter.imprimir doc o
  = (Ret tt,
     mkOutside
       (stdout o ++ [lit "[ConsolePrinter] Imprimiendo carné:" ++ nl;
                     SimpleCardGenerator.contenido u fee])
       (env o)).
Proof.
  unfold SimpleCardGenerator.generar, str_encode.
  destruct (utf8_encode_all (SimpleCardGenerator.contenido u fee)) as [b|] eqn:Hb;
    [|discriminate].
  intros [= <-].
  rewrite imprimir_run, (utf8_decode_encode _ _ Hb). reflexivity.
Qed.

Lemma printed_card_is_the_rendered_text_witness :
  ConsolePrinter.imprimir
    (match fst (SimpleCardGenerator.generar ana 10%float tt) with
     | Ret b => b
     | Raise _ => []
     end) (mkOutside [] tt)
  = (Ret tt,
     mkOutside
       ([] ++ [lit "[ConsolePrinter] Imprimiendo carné:" ++ nl;
               SimpleCardGenerator.contenido ana 10%float])
       tt).
Proof.
  exact (printed_card_is_the_rendered_text ana 10%float tt _ (mkOutside [] tt)
           eq_refl).
Defined.

(** ** The email notifier *)

Lemma email_line_encodable (destinatario asunto cuerpo : str) :
  encodable (email_line destinatario asunto cuerpo)
  <-> encodable destinatario /\ encodable asunto /\ encodable (take 80 cuerpo).
Proof.
  unfold email_line. rewrite !encodable_app_iff. split; [tauto|].
  intros (Hd & Ha & Hc).
  repeat split; first [ assumption | apply encodable_forallb; reflexivity ].
Qed.

Lemma attachment_line_encodable (a : bytes) : encodable (attachment_line a).
Proof. unfold attachment_line. encodable_parts encodable_leaf. Qed.

Lemma enviar_run {E} (smtp_server : str) (smtp_port : Z)
    (destinatario asunto cuerpo : str) (attachment : option bytes)
    (o : Outside E) :
  encodable (email_line destinatario asunto cuerpo) ->
  EmailNotifier.enviar smtp_server smtp_port destinatario asunto cuerpo attachment o
  = (Ret tt,
     mkOutside
       (stdout o
        ++ email_line destinatario asunto cuerpo
           :: match attachment with
              | Some (b :: r) => [attachment_line (b :: r)]
              | _ => []
              end)
       (env o)).
Proof.
  intros H. unfold EmailNotifier.enviar.
  erewrite bind_Ret; [|exact (print_encodable _ o H)].
  destruct attachment as [[|b r]|]; try reflexivity.
  fold (attachment_line (b :: r)).
  rewrite (print_encodable _ _ (attachment_line_encodable (b :: r))).
  cbn [stdout env]. rewrite <- app_assoc. reflexivity.
Qed.

(** X14. The email notifier only prints.  It returns exactly when the
    recipient, the subject and the first 80 code points of the body can be
    printed, and then prints the message line, followed by the size line
    for a non-empty attachment only; otherwise it raises UnicodeEncodeError
    with nothing printed.  An empty attachment is handled as no
    attachment, and the server and port it was built with play no part. *)
Theorem email_notifier_prints_or_raises {E} (smtp_server smtp_server' : str)
    (smtp_port smtp_port' : Z) (destinatario asunto cuerpo : str)
    (attachment : option bytes) (o : Outside E) :
  let send att := EmailNotifier.enviar smtp_server smtp_port destinatario asunto
                    cuerpo att o in
  let line := email_line destinatario asunto cuerpo in
  (encodable line
   <-> encodable destinatario /\ encodable asunto /\ encodable (take 80 cuerpo))
  /\ (encodable line ->
      send None = (Ret tt, mkOutside (stdout o ++ [line]) (env o))
      /\ forall b r,
           send (Some (b :: r))
           = (Ret tt,
              mkOutside (stdout o ++ [line; attachment_line (b :: r)]) (env o)))
  /\ (~ encodable line ->
      exists i j, send attachment = (Raise (UnicodeEncodeError line i j), o))
  /\ send (Some []) = send None
  /\ EmailNotifier.enviar smtp_server' smtp_port' destinatario asunto cuerpo
       attachment o
     = send attachment.
Proof.
  intros send line. split; [apply email_line_encodable|].
  split; [|split; [|split]].
  - intros H. unfold send. split; [|intros b r]; rewrite enviar_run by exact H;
      reflexivity.
  - intros H. unfold send, EmailNotifier.enviar.
    erewrite bind_Raise; [|exact (print_unencodable _ o H)].
    eexists. eexists. reflexivity.
  - reflexivity.
  - reflexivity.
Qed.

(** ** The run of the program's own classes *)

Lemma cuerpo_encodable (u : Usuario) (fee : float) :
  encodable (Usuario.nombre u) -> encodable (Usuario.id u) ->
  encodable (GestorCarne.cuerpo u fee).
Proof.
  intros Hn Hi. unfold GestorCarne.cuerpo.
  encodable_parts ltac:(first [ apply encodable_format_2f | encodable_leaf ]).
Qed.

Lemma contenido_nonempty_bytes (u : Usuario) (fee : float) (doc : bytes) :
  utf8_encode_all (SimpleCardGenerator.contenido u fee) = Some doc ->
  exists b r, doc = b :: r.
Proof.
  intros H. destruct doc as [|b r]; [|now exists b, r].
  apply utf8_decode_encode in H. cbn in H. discriminate.
Qed.

Lemma default_run {E} (smtp_server : str) (smtp_port : Z) (u : Usuario)
    (w : World E) (cls : ICostoCarne) (doc : bytes) :
  pasa_validacion u ->
  CostoFactory._mapping !! Usuario.tipo u = Some cls ->
  utf8_encode_all (SimpleCardGenerator.contenido u (calcular cls u)) = Some doc ->
  encodable (Usuario.nombre u) -> encodable (Usuario.id u) ->
  encodable (Usuario.correo u) ->
  GestorCarne.emitir_carne
    (GestorCarne.mk UsuarioValidator.new InMemoryRepository.new
       (EmailNotifier.new smtp_server smtp_port) SimpleCardGenerator.new
       ConsolePrinter.new) u w
  = (Ret (Resultado.mk (Usuario.id u) (calcular cls u)),
     mkWorld
       (mkOutside
          (stdout (outside w)
           ++ [saved_message u (S (length (store w)));
               email_line (Usuario.correo u) GestorCarne.asunto
                 (GestorCarne.cuerpo u (calcular cls u));
               attachment_line doc;
               lit "[ConsolePrinter] Imprimiendo carné:" ++ nl;
               SimpleCardGenerator.contenido u (calcular cls u)])
          (env (outside w)))
       (store w ++ [Registro.mk u (calcular cls u) doc])).
Proof.
  intros Hv Hcls Hdoc Hn Hi Hc.
  assert (Hg : generar SimpleCardGenerator.new u (calcular cls u) (outside w)
               = (Ret doc, outside w)).
  { cbn [generar SimpleCardGenerator.new].
    unfold SimpleCardGenerator.generar, str_encode. rewrite Hdoc. reflexivity. }
  assert (Hline : encodable (email_line (Usuario.correo u) GestorCarne.asunto
                               (GestorCarne.cuerpo u (calcular cls u)))).
  { apply email_line_encodable. split; [exact Hc|]. split.
    - apply encodable_forallb. reflexivity.
    - apply Forall_take, cuerpo_encodable; assumption. }
  destruct (contenido_nonempty_bytes u _ doc Hdoc) as (b & r & Hbr).
  rewrite (emitir_carne_run _ _ _ u w cls doc _ Hv Hcls Hg Hi).
  - cbn [enviar EmailNotifier.new imprimir ConsolePrinter.new].
    rewrite (enviar_run _ _ _ _ _ _ _ Hline). unfold logged at 2.
    rewrite imprimir_run, (utf8_decode_encode _ _ Hdoc). unfold logged.
    rewrite Hbr. cbn [stdout env]. rewrite <- !app_assoc. reflexivity.
  - cbn [enviar EmailNotifier.new].
    rewrite (enviar_run _ _ _ _ _ _ _ Hline). exact I.
  - cbn [imprimir ConsolePrinter.new]. rewrite imprimir_run. exact I.
Qed.

(** X11. The run with the classes the program instantiates (validator,
    in-memory repository, email notifier, simple card generator, console
    printer), on a valid member whose name, id, category and email can be
    encoded: it returns, stores the record, and prints five entries in
    this order - the repository line, the email line, the attachment size,
    the printer header, the card text - and no error line. *)
Theorem default_run_transcript {E} (smtp_server : str) (smtp_port : Z)
    (u : Usuario) (w : World E) :
  pasa_validacion u ->
  encodable (Usuario.nombre u) -> encodable (Usuario.id u) ->
  encodable (Usuario.tipo u) -> encodable (Usuario.correo u) ->
  exists fee doc,
    (forall S (s : S), feeFor (Usuario.tipo u) u s = (Ret fee, s))
    /\ utf8_encode_all (SimpleCardGenerator.contenido u fee) = Some doc
    /\ GestorCarne.emitir_carne
         (GestorCarne.mk UsuarioValidator.new InMemoryRepository.new
            (EmailNotifier.new smtp_server smtp_port) SimpleCardGenerator.new
            ConsolePrinter.new) u w
       = (Ret (Resultado.mk (Usuario.id u) fee),
          mkWorld
            (mkOutside
               (stdout (outside w)
                ++ [saved_message u (S (length (store w)));
                    email_line (Usuario.correo u) GestorCarne.asunto
                      (GestorCarne.cuerpo u fee);
                    attachment_line doc;
                    lit "[ConsolePrinter] Imprimiendo carné:" ++ nl;
                    SimpleCardGenerator.contenido u fee])
               (env (outside w)))
            (store w ++ [Registro.mk u fee doc])).
Proof.
  intros Hv Hn Hi Ht Hc.
  destruct (get_costo_strategy_valid u Hv) as (cls & Hcls & Hget).
  destruct (proj1 (utf8_encode_all_encodable _)
              (encodable_contenido u (calcular cls u) Hn Hi Ht)) as [doc Hdoc].
  exists (calcular cls u), doc. split; [|split; [exact Hdoc|]].
  { intros S s. unfold feeFor. erewrite bind_Ret; [|apply Hget]. reflexivity. }
  exact (default_run smtp_server smtp_port u w cls doc Hv Hcls Hdoc Hn Hi Hc).
Qed.

Lemma default_run_transcript_witness :
  exists fee doc,
    (forall S (s : S), feeFor (Usuario.tipo ana) ana s = (Ret fee, s))
    /\ utf8_encode_all (SimpleCardGenerator.contenido ana fee) = Some doc
    /\ GestorCarne.emitir_carne
         (GestorCarne.mk UsuarioValidator.new InMemoryRepository.new
            (EmailNotifier.new (lit "smtp.miuniversidad.edu") 587)
            SimpleCardGenerator.new ConsolePrinter.new) ana mundo_vacio
       = (Ret (Resultado.mk (Usuario.id ana) fee),
          mkWorld
            (mkOutside
               (stdout (outside mundo_vacio)
                ++ [saved_message ana (S (length (store mundo_vacio)));
                    email_line (Usuario.correo ana) GestorCarne.asunto
                      (GestorCarne.cuerpo ana fee);
                    attachment_line doc;
                    lit "[ConsolePrinter] Imprimiendo carné:" ++ nl;
                    SimpleCardGenerator.contenido ana fee])
               (env (outside mundo_vacio)))
            (store mundo_vacio ++ [Registro.mk ana fee doc])).
Proof.
  apply (default_run_transcript (lit "smtp.miuniversidad.edu") 587 ana
           mundo_vacio eq_refl);
    apply encodable_forallb; reflexivity.
Defined.

(** X7. Nothing is deduplicated: issuing the card of the same member
    twice with the program's own classes, the second run starting where
    the first ended, returns the same result twice and leaves two equal
    records at the end of the store (the member being valid, with a name,
    id, category and email that can be encoded). *)
Theorem second_run_stores_again {E} (smtp_server : str) (smtp_port : Z)
    (u : Usuario) (w : World E) :
  pasa_validacion u ->
  encodable (Usuario.nombre u) -> encodable (Usuario.id u) ->
  encodable (Usuario.tipo u) -> encodable (Usuario.correo u) ->
  let g := GestorCarne.mk UsuarioValidator.new InMemoryRepository.new
             (EmailNotifier.new smtp_server smtp_port) SimpleCardGenerator.new
             ConsolePrinter.new in
  let first := GestorCarne.emitir_carne g u w in
  let second := GestorCarne.emitir_carne g u (snd first) in
  exists res r,
    fst first = Ret res /\ fst second = Ret res
    /\ Registro.usuario r = u
    /\ store (snd first) = store w ++ [r]
    /\ store (snd second) = store w ++ [r; r].
Proof.
  intros Hv Hn Hi Ht Hc g first second.
  destruct (get_costo_strategy_valid u Hv) as (cls & Hcls & _).
  destruct (proj1 (utf8_encode_all_encodable _)
              (encodable_contenido u (calcular cls u) Hn Hi Ht)) as [doc Hdoc].
  exists (Resultado.mk (Usuario.id u) (calcular cls u)),
         (Registro.mk u (calcular cls u) doc).
  assert (H1 : first = first) by reflexivity.
  unfold first at 2, g in H1.
  rewrite (default_run smtp_server smtp_port u w cls doc Hv Hcls Hdoc Hn Hi Hc)
    in H1.
  assert (H2 : second = second) by reflexivity.
  unfold second at 2, g in H2.
  rewrite (default_run smtp_server smtp_port u (snd first) cls doc Hv Hcls Hdoc
             Hn Hi Hc) in H2.
  rewrite H2, H1. cbn [fst snd store Registro.usuario].
  repeat split. rewrite <- app_assoc. reflexivity.
Qed.

Lemma second_run_stores_again_witness :
  exists res r,
    fst (GestorCarne.emitir_carne demo_gestor ana mundo_vacio) = Ret res
    /\ fst (GestorCarne.emitir_carne demo_gestor ana
              (snd (GestorCarne.emitir_carne demo_gestor ana mundo_vacio)))
       = Ret res
    /\ Registro.usuario r = ana
    /\ store (snd (GestorCarne.emitir_carne demo_gestor ana mundo_vacio))
       = store mundo_vacio ++ [r]
    /\ store (snd (GestorCarne.emitir_carne demo_gestor ana
                     (snd (GestorCarne.emitir_carne demo_gestor ana mundo_vacio))))
       = store mundo_vacio ++ [r; r].
Proof.
  apply (second_run_stores_again (lit "smtp.miuniversidad.edu") 587
           ana mundo_vacio eq_refl);
    apply encodable_forallb; reflexivity.
Defined.
